(** * RC sender and receiver: the radio packet, the receiver's control loop
      and the sender's settings editor

    A shallow embedding of the two Arduino programs of the repository:
    - the receiver (Arduino Pro Mini): [validateData], [receiveData],
      [isConnected], [updateAccessoires], [updatePwmDevices] and the mode
      handlers dispatched by [loop];
    - the sender (Teensy LC): [risingEdge], [readJoystick], [sendData],
      the entry of [drawProScreen] and the loop of [drawEditProSettings].

    Conventions.
    - Machine integers are [Z]; every conversion the C++ code performs
      (to [int8_t], [byte], [unsigned int], [unsigned long]) is written out.
    - [millis()] is the node's clock (milliseconds since boot, kept in the
      state as an unbounded [Z]) reduced modulo 2^32; [delay n] advances the
      clock by [n].
    - The display is write-only for both programs and is left out.
    - The float arithmetic of [updatePwmDevices] is modelled by IEEE-754
      binary32 operations with round-to-nearest-even, see [Float32]. *)

From Stdlib Require Import ZArith QArith Bool List Lia.
Import ListNotations.

Local Open Scope Z_scope.

(** ** Integer conversions *)

Definition to_uint8 (z : Z) : Z := z mod 256.
Definition to_int8 (z : Z) : Z :=
  let u := z mod 256 in if u <? 128 then u else u - 256.
Definition to_int16 (z : Z) : Z :=
  let u := z mod 65536 in if u <? 32768 then u else u - 65536.
Definition to_uint16 (z : Z) : Z := z mod 65536.
Definition to_uint32 (z : Z) : Z := z mod 2 ^ 32.

(** ** The packet

    [struct dataPackage], the same on both nodes apart from the default
    [mode].  The ten [bool] members are kept as the byte that travels over
    the radio: [radio.read] copies raw bytes into the struct, so on the
    receiver such a member can hold any byte; the code tests it for
    non-zero. *)

Record dataPackage : Type := {
  rightX : Z;               (* int16_t, 0...1023, -1 = uninitialized *)
  leftX : Z;
  rightY : Z;
  leftY : Z;
  mode : Z;                 (* int8_t *)
  throttleSensitifity : Z;  (* int8_t, 0...100, -1 = uninitialized *)
  steerSensitifity : Z;
  rightJoystickButton : Z;  (* bool *)
  leftJoystickButton : Z;
  ackButton : Z;
  backButton : Z;
  auxButton1 : Z;
  auxButton2 : Z;
  brake : Z;
  honk : Z;
  headLight : Z;
  tailLight : Z
}.

(** Statemachine options, shared by both programs. *)
Definition idle : Z := 0.
Definition easy : Z := 1.
Definition pro : Z := 2.
Definition debug : Z := 3.
Definition notConnected : Z := 4.

(** The member initialisers of the struct, with the given default mode. *)
Definition defaultPackage (m : Z) : dataPackage :=
  {| rightX := -1; leftX := -1; rightY := -1; leftY := -1;
     mode := m; throttleSensitifity := -1; steerSensitifity := -1;
     rightJoystickButton := 0; leftJoystickButton := 0; ackButton := 0;
     backButton := 0; auxButton1 := 0; auxButton2 := 0;
     brake := 0; honk := 0; headLight := 0; tailLight := 0 |}.

(** Assignments to single members. *)
Definition set_mode (m : Z) (p : dataPackage) : dataPackage :=
  {| rightX := rightX p; leftX := leftX p; rightY := rightY p;
     leftY := leftY p; mode := m;
     throttleSensitifity := throttleSensitifity p;
     steerSensitifity := steerSensitifity p;
     rightJoystickButton := rightJoystickButton p;
     leftJoystickButton := leftJoystickButton p;
     ackButton := ackButton p; backButton := backButton p;
     auxButton1 := auxButton1 p; auxButton2 := auxButton2 p;
     brake := brake p; honk := honk p;
     headLight := headLight p; tailLight := tailLight p |}.

Definition set_throttleSensitifity (v : Z) (p : dataPackage) : dataPackage :=
  {| rightX := rightX p; leftX := leftX p; rightY := rightY p;
     leftY := leftY p; mode := mode p;
     throttleSensitifity := v;
     steerSensitifity := steerSensitifity p;
     rightJoystickButton := rightJoystickButton p;
     leftJoystickButton := leftJoystickButton p;
     ackButton := ackButton p; backButton := backButton p;
     auxButton1 := auxButton1 p; auxButton2 := auxButton2 p;
     brake := brake p; honk := honk p;
     headLight := headLight p; tailLight := tailLight p |}.

Definition set_steerSensitifity (v : Z) (p : dataPackage) : dataPackage :=
  {| rightX := rightX p; leftX := leftX p; rightY := rightY p;
     leftY := leftY p; mode := mode p;
     throttleSensitifity := throttleSensitifity p;
     steerSensitifity := v;
     rightJoystickButton := rightJoystickButton p;
     leftJoystickButton := leftJoystickButton p;
     ackButton := ackButton p; backButton := backButton p;
     auxButton1 := auxButton1 p; auxButton2 := auxButton2 p;
     brake := brake p; honk := honk p;
     headLight := headLight p; tailLight := tailLight p |}.

(** A C++ [bool] used as a condition. *)
Definition truthy (b : Z) : bool := negb (b =? 0).
Definition of_bool (b : bool) : Z := if b then 1 else 0.

(** ** Binary32 arithmetic

    A finite binary32 number is represented by the rational it denotes.
    [round] maps a rational to the nearest number with a 24-bit
    significand, ties to even.  The exponent range is not modelled: every
    value [updatePwmDevices] computes lies between 2^-1 and 2^8. *)

Module Float32.

(** Nearest integer to [n / d] for [0 <= n], [0 < d], ties to even. *)
Definition div_rne (n d : Z) : Z :=
  let q := n / d in
  let r := n mod d in
  match 2 * r ?= d with
  | Lt => q
  | Gt => q + 1
  | Eq => if Z.even q then q else q + 1
  end.

(** [n / (d * 2^e)] rounded down. *)
Definition scaled (n d e : Z) : Z :=
  if 0 <=? e then n / (d * 2 ^ e) else (n * 2 ^ (- e)) / d.

(** Exponent [e] of the last place of [n / d]:
    [2^23 <= n / (d * 2^e) < 2^24]. *)
Definition ulp_exp (n d : Z) : Z :=
  let e := Z.log2 n - Z.log2 d - 23 in
  if scaled n d e <? 2 ^ 23 then e - 1 else e.

Definition pow2 (e : Z) : Q :=
  if 0 <=? e then inject_Z (2 ^ e) else 1 # Z.to_pos (2 ^ (- e)).

Definition round_pos (n d : Z) : Q :=
  let e := ulp_exp n d in
  let m := if 0 <=? e then div_rne n (d * 2 ^ e)
           else div_rne (n * 2 ^ (- e)) d in
  (inject_Z m * pow2 e)%Q.

Definition round (q : Q) : Q :=
  match Qnum q with
  | Z0 => 0%Q
  | Zpos n => round_pos (Zpos n) (Zpos (Qden q))
  | Zneg n => (- round_pos (Zpos n) (Zpos (Qden q)))%Q
  end.

Definition of_int (z : Z) : Q := round (inject_Z z).
Definition add (a b : Q) : Q := round (a + b)%Q.
Definition sub (a b : Q) : Q := round (a - b)%Q.
Definition mul (a b : Q) : Q := round (a * b)%Q.
Definition div (a b : Q) : Q := round (a / b)%Q.

(** Conversion to an integer type truncates toward zero. *)
Definition trunc (q : Q) : Z := Z.quot (Qnum q) (Zpos (Qden q)).

End Float32.

(** Arduino's [map]:
    [(x - in_min) * (out_max - out_min) / (in_max - in_min) + out_min]
    on [long], where [/] truncates toward zero.  For an [int16_t] [x] and
    [unsigned int] bounds the product stays inside 32 bits. *)
Definition map (x in_min in_max out_min out_max : Z) : Z :=
  Z.quot ((x - in_min) * (out_max - out_min)) (in_max - in_min) + out_min.

(** ** The receiver (Arduino Pro Mini) *)

Module Receiver.

(** Checks if the data received from the remote is valid.  The source
    notes that the booleans are not checked. *)
Definition validateData (check : dataPackage) : bool :=
  if (rightX check >? 1023) || (rightX check <? -1) then false
  else if (rightY check >? 1023) || (rightY check <? -1) then false
  else if (leftX check >? 1023) || (leftX check <? -1) then false
  else if (leftY check >? 1023) || (leftY check <? -1) then false
  else if (mode check >? 3) || (mode check <? 0) then false
  else if (throttleSensitifity check >? 100)
          || (throttleSensitifity check <? -1) then false
  else if (steerSensitifity check >? 100)
          || (steerSensitifity check <? -1) then false
  else true.

(** The globals of the program, the clock, and the outputs: the last
    argument given to each [Servo::write], the level of each output pin,
    and the [tone] calls made so far (newest first). *)
Record receiver : Type := {
  rawData : dataPackage;
  rxData : dataPackage;
  lastReceive : Z;          (* unsigned long *)
  headLightBlink : Z;       (* unsigned long *)
  clock : Z;
  motorcontroller : option Z;
  servo : option Z;
  pin_receivedLED : bool;
  pin_interferenceLED : bool;
  pin_headLight : bool;
  pin_tailLight : bool;
  tones : list (Z * Z)      (* frequency, duration *)
}.

(** State after [setup]: nothing written to the servos yet, pins low. *)
Definition boot : receiver :=
  {| rawData := defaultPackage notConnected;
     rxData := defaultPackage notConnected;
     lastReceive := 0; headLightBlink := 0; clock := 0;
     motorcontroller := None; servo := None;
     pin_receivedLED := false; pin_interferenceLED := false;
     pin_headLight := false; pin_tailLight := false;
     tones := [] |}.

Definition millis (st : receiver) : Z := to_uint32 (clock st).

(** *** Field updates *)

Definition set_rawData (p : dataPackage) (st : receiver) : receiver :=
  {| rawData := p; rxData := rxData st; lastReceive := lastReceive st;
     headLightBlink := headLightBlink st; clock := clock st;
     motorcontroller := motorcontroller st; servo := servo st;
     pin_receivedLED := pin_receivedLED st;
     pin_interferenceLED := pin_interferenceLED st;
     pin_headLight := pin_headLight st; pin_tailLight := pin_tailLight st;
     tones := tones st |}.

Definition set_rxData (p : dataPackage) (st : receiver) : receiver :=
  {| rawData := rawData st; rxData := p; lastReceive := lastReceive st;
     headLightBlink := headLightBlink st; clock := clock st;
     motorcontroller := motorcontroller st; servo := servo st;
     pin_receivedLED := pin_receivedLED st;
     pin_interferenceLED := pin_interferenceLED st;
     pin_headLight := pin_headLight st; pin_tailLight := pin_tailLight st;
     tones := tones st |}.

Definition set_lastReceive (t : Z) (st : receiver) : receiver :=
  {| rawData := rawData st; rxData := rxData st; lastReceive := t;
     headLightBlink := headLightBlink st; clock := clock st;
     motorcontroller := motorcontroller st; servo := servo st;
     pin_receivedLED := pin_receivedLED st;
     pin_interferenceLED := pin_interferenceLED st;
     pin_headLight := pin_headLight st; pin_tailLight := pin_tailLight st;
     tones := tones st |}.

Definition set_headLightBlink (t : Z) (st : receiver) : receiver :=
  {| rawData := rawData st; rxData := rxData st;
     lastReceive := lastReceive st;
     headLightBlink := t; clock := clock st;
     motorcontroller := motorcontroller st; servo := servo st;
     pin_receivedLED := pin_receivedLED st;
     pin_interferenceLED := pin_interferenceLED st;
     pin_headLight := pin_headLight st; pin_tailLight := pin_tailLight st;
     tones := tones st |}.

(** [delay(ms)], and time passing between two statements. *)
Definition delay (ms : Z) (st : receiver) : receiver :=
  {| rawData := rawData st; rxData := rxData st;
     lastReceive := lastReceive st;
     headLightBlink := headLightBlink st; clock := clock st + ms;
     motorcontroller := motorcontroller st; servo := servo st;
     pin_receivedLED := pin_receivedLED st;
     pin_interferenceLED := pin_interferenceLED st;
     pin_headLight := pin_headLight st; pin_tailLight := pin_tailLight st;
     tones := tones st |}.

(** [motorcontroller.write(v)] and [servo.write(v)]. *)
Definition motorcontroller_write (v : Z) (st : receiver) : receiver :=
  {| rawData := rawData st; rxData := rxData st;
     lastReceive := lastReceive st;
     headLightBlink := headLightBlink st; clock := clock st;
     motorcontroller := Some v; servo := servo st;
     pin_receivedLED := pin_receivedLED st;
     pin_interferenceLED := pin_interferenceLED st;
     pin_headLight := pin_headLight st; pin_tailLight := pin_tailLight st;
     tones := tones st |}.

Definition servo_write (v : Z) (st : receiver) : receiver :=
  {| rawData := rawData st; rxData := rxData st;
     lastReceive := lastReceive st;
     headLightBlink := headLightBlink st; clock := clock st;
     motorcontroller := motorcontroller st; servo := Some v;
     pin_receivedLED := pin_receivedLED st;
     pin_interferenceLED := pin_interferenceLED st;
     pin_headLight := pin_headLight st; pin_tailLight := pin_tailLight st;
     tones := tones st |}.

(** [digitalWrite] on each of the four output pins. *)
Definition write_receivedLED (b : bool) (st : receiver) : receiver :=
  {| rawData := rawData st; rxData := rxData st;
     lastReceive := lastReceive st;
     headLightBlink := headLightBlink st; clock := clock st;
     motorcontroller := motorcontroller st; servo := servo st;
     pin_receivedLED := b;
     pin_interferenceLED := pin_interferenceLED st;
     pin_headLight := pin_headLight st; pin_tailLight := pin_tailLight st;
     tones := tones st |}.

Definition write_interferenceLED (b : bool) (st : receiver) : receiver :=
  {| rawData := rawData st; rxData := rxData st;
     lastReceive := lastReceive st;
     headLightBlink := headLightBlink st; clock := clock st;
     motorcontroller := motorcontroller st; servo := servo st;
     pin_receivedLED := pin_receivedLED st;
     pin_interferenceLED := b;
     pin_headLight := pin_headLight st; pin_tailLight := pin_tailLight st;
     tones := tones st |}.

Definition write_headLight (b : bool) (st : receiver) : receiver :=
  {| rawData := rawData st; rxData := rxData st;
     lastReceive := lastReceive st;
     headLightBlink := headLightBlink st; clock := clock st;
     motorcontroller := motorcontroller st; servo := servo st;
     pin_receivedLED := pin_receivedLED st;
     pin_interferenceLED := pin_interferenceLED st;
     pin_headLight := b; pin_tailLight := pin_tailLight st;
     tones := tones st |}.

Definition write_tailLight (b : bool) (st : receiver) : receiver :=
  {| rawData := rawData st; rxData := rxData st;
     lastReceive := lastReceive st;
     headLightBlink := headLightBlink st; clock := clock st;
     motorcontroller := motorcontroller st; servo := servo st;
     pin_receivedLED := pin_receivedLED st;
     pin_interferenceLED := pin_interferenceLED st;
     pin_headLight := pin_headLight st; pin_tailLight := b;
     tones := tones st |}.

(** [tone(horn, frequency, duration)]. *)
Definition tone (frequency duration : Z) (st : receiver) : receiver :=
  {| rawData := rawData st; rxData := rxData st;
     lastReceive := lastReceive st;
     headLightBlink := headLightBlink st; clock := clock st;
     motorcontroller := motorcontroller st; servo := servo st;
     pin_receivedLED := pin_receivedLED st;
     pin_interferenceLED := pin_interferenceLED st;
     pin_headLight := pin_headLight st; pin_tailLight := pin_tailLight st;
     tones := (frequency, duration) :: tones st |}.

(** *** The program *)

(** Function that checks if the vehicle is still connected to the
    remote. *)
Definition isConnected (st : receiver) : receiver :=
  if to_uint32 (millis st - lastReceive st) >? 3000
  then set_rxData (set_mode notConnected (rxData st)) st
  else st.

(** Check if data is received, if so read the data and validate.
    [radio] is [Some p] when [radio.available()] holds and [radio.read]
    then delivers [p]. *)
Definition receiveData (radio : option dataPackage) (st : receiver)
  : receiver :=
  match radio with
  | None => st
  | Some p =>
      let st := write_receivedLED true st in
      let st := set_lastReceive (millis st) st in
      let st := set_rawData p st in
      let st :=
        if validateData (rawData st) then
          let st :=
            if mode (rxData st) =? notConnected then
              let st := tone 220 500 st in
              let st := delay 500 st in
              let st := tone 880 500 st in
              delay 1000 st
            else st in
          set_rxData (rawData st) st
        else write_interferenceLED true st in
      write_receivedLED false st
  end.

(** Update hardware features based on the data received from the
    remote. *)
Definition updateAccessoires (st : receiver) : receiver :=
  let st := write_headLight (truthy (headLight (rxData st))) st in
  let st := write_tailLight (truthy (tailLight (rxData st))) st in
  let st := if truthy (honk (rxData st)) then tone 220 500 st else st in
  if truthy (brake (rxData st)) then motorcontroller_write 0 st else st.

Definition upperBoundary : Z := 180.
Definition middlepoint : Z := upperBoundary / 2.

(** [middlepoint + (float)middlepoint / 100 * sensitivity] and
    [middlepoint - (float)middlepoint / 100 * sensitivity], stored in
    an [unsigned int] (16 bits on the Pro Mini).  For the sensitivities
    [validateData] lets through, -1..100, the float lies in [0, 181) and
    the conversion is a plain truncation; outside that range C leaves the
    conversion of a negative float undefined, and the reduction modulo
    2^16 here is only one possible outcome. *)
Definition pwm_max (sensitivity : Z) : Z :=
  to_uint16 (Float32.trunc
    (Float32.add (Float32.of_int middlepoint)
       (Float32.mul
          (Float32.div (Float32.of_int middlepoint) (Float32.of_int 100))
          (Float32.of_int sensitivity)))).

Definition pwm_min (sensitivity : Z) : Z :=
  to_uint16 (Float32.trunc
    (Float32.sub (Float32.of_int middlepoint)
       (Float32.mul
          (Float32.div (Float32.of_int middlepoint) (Float32.of_int 100))
          (Float32.of_int sensitivity)))).

(** The position computed for an axis: [map(raw, 0, 1023, min, max)]
    stored in an [unsigned int]. *)
Definition position (raw sensitivity : Z) : Z :=
  to_uint16 (map raw 0 1023 (pwm_min sensitivity) (pwm_max sensitivity)).

(** Update the servo and motorcontroller with the most recent data. *)
Definition updatePwmDevices (st : receiver) : receiver :=
  let steerPosition :=
    position (leftX (rxData st)) (steerSensitifity (rxData st)) in
  let st := servo_write steerPosition st in
  let throttle :=
    position (rightY (rxData st)) (throttleSensitifity (rxData st)) in
  motorcontroller_write throttle st.

(** Function that is called when the vehicle is not connected to the
    remote. *)
Definition waitForRemote (radio : option dataPackage) (st : receiver)
  : receiver :=
  let st := motorcontroller_write 90 st in
  let st := servo_write 90 st in
  let st := receiveData radio st in
  if to_uint32 (millis st - headLightBlink st) >? 1500 then
    let st := set_headLightBlink (millis st) st in
    let st := write_headLight (negb (pin_headLight st)) st in
    write_tailLight (negb (pin_tailLight st)) st
  else st.

Definition idleMode (radio : option dataPackage) (st : receiver)
  : receiver :=
  let st := receiveData radio st in
  let st := isConnected st in
  let st := updateAccessoires st in
  motorcontroller_write 90 st.   (* Stop the motor *)

Definition easyMode (radio : option dataPackage) (st : receiver)
  : receiver :=
  let st := receiveData radio st in
  let st := isConnected st in
  let st := updateAccessoires st in
  updatePwmDevices st.

Definition proMode (radio : option dataPackage) (st : receiver)
  : receiver :=
  let st := receiveData radio st in
  let st := isConnected st in
  let st := updateAccessoires st in
  updatePwmDevices st.

Definition debugMode (radio : option dataPackage) (st : receiver)
  : receiver :=
  let st := receiveData radio st in
  isConnected st.

(** One pass of [loop]: the statemachine on [rxData.mode]; a value
    outside the five cases does nothing. *)
Definition loop (radio : option dataPackage) (st : receiver) : receiver :=
  let m := mode (rxData st) in
  if m =? notConnected then waitForRemote radio st
  else if m =? idle then idleMode radio st
  else if m =? easy then easyMode radio st
  else if m =? pro then proMode radio st
  else if m =? debug then debugMode radio st
  else st.

(** An execution of the receiver: passes of [loop], each with what the
    radio holds at that moment, and time passing in between. *)
Inductive event : Type :=
| Advance (ms : Z)
| Pass (radio : option dataPackage).

Definition step (ev : event) (st : receiver) : receiver :=
  match ev with
  | Advance ms => delay ms st
  | Pass radio => loop radio st
  end.

Fixpoint run (tr : list event) (st : receiver) : receiver :=
  match tr with
  | [] => st
  | ev :: tr' => run tr' (step ev st)
  end.

(** A stretch of an execution in which the radio never holds a
    packet. *)
Definition silent (ev : event) : Prop :=
  match ev with
  | Advance _ => True
  | Pass radio => radio = None
  end.

(** The domains the packet contract declares, member by member. *)
Definition axis_domain (v : Z) : Prop := -1 <= v <= 1023.
Definition mode_domain (v : Z) : Prop := 0 <= v <= 3.
Definition sensitivity_domain (v : Z) : Prop := -1 <= v <= 100.
Definition bool_domain (v : Z) : Prop := v = 0 \/ v = 1.

(** The members [validateData] looks at. *)
Definition numeric_domains (p : dataPackage) : Prop :=
  axis_domain (rightX p) /\ axis_domain (rightY p) /\
  axis_domain (leftX p) /\ axis_domain (leftY p) /\
  mode_domain (mode p) /\
  sensitivity_domain (throttleSensitifity p) /\
  sensitivity_domain (steerSensitifity p).

(** *** Packets and states used in the examples *)

(** A packet as the sender builds it in the given mode, sticks at the
    given positions. *)
Definition packet (m lx ry throttle steer brk : Z) : dataPackage :=
  {| rightX := 512; leftX := lx; rightY := ry; leftY := 512;
     mode := m; throttleSensitifity := throttle;
     steerSensitifity := steer;
     rightJoystickButton := 0; leftJoystickButton := 0; ackButton := 0;
     backButton := 0; auxButton1 := 0; auxButton2 := 0;
     brake := brk; honk := 0; headLight := 0; tailLight := 0 |}.

(** A packet whose [rightX] is out of range. *)
Definition garbled : dataPackage :=
  {| rightX := 2000; leftX := 512; rightY := 512; leftY := 512;
     mode := easy; throttleSensitifity := 40; steerSensitifity := 50;
     rightJoystickButton := 0; leftJoystickButton := 0; ackButton := 0;
     backButton := 0; auxButton1 := 0; auxButton2 := 0;
     brake := 0; honk := 0; headLight := 0; tailLight := 0 |}.

(** A packet in which only the [brake] byte is neither 0 nor 1. *)
Definition odd_brake : dataPackage := packet easy 512 512 40 50 2.

(** A Pro packet with the headlight and the taillight switched on. *)
Definition lights_on : dataPackage :=
  {| rightX := 512; leftX := 512; rightY := 512; leftY := 512;
     mode := pro; throttleSensitifity := 80; steerSensitifity := 50;
     rightJoystickButton := 0; leftJoystickButton := 0; ackButton := 0;
     backButton := 0; auxButton1 := 0; auxButton2 := 0;
     brake := 0; honk := 0; headLight := 1; tailLight := 1 |}.

(** The sensitivities 0..100. *)
Definition percent : list Z := List.map Z.of_nat (seq 0 101).

(** The receiver in the given mode with the given active packet. *)
Definition driving (p : dataPackage) : receiver := set_rxData p boot.

(** *** What every reachable state of the receiver satisfies *)

(** The active packet is the default one, an accepted one, or one of
    these with its mode overwritten by [notConnected]. *)
Definition active_ok (p : dataPackage) : Prop :=
  axis_domain (rightX p) /\ axis_domain (rightY p) /\
  axis_domain (leftX p) /\ axis_domain (leftY p) /\
  0 <= mode p <= 4 /\
  sensitivity_domain (throttleSensitifity p) /\
  sensitivity_domain (steerSensitifity p).

(** An argument of [Servo::write] inside the servo's range. *)
Definition command_ok (c : option Z) : Prop :=
  match c with
  | None => True
  | Some v => 0 <= v <= upperBoundary
  end.

Definition safe (st : receiver) : Prop :=
  active_ok (rxData st) /\
  command_ok (motorcontroller st) /\ command_ok (servo st).

End Receiver.

(** ** The sender (Teensy LC) *)

Module Transmitter.

(** Pin numbers.  [A0]..[A3] are the Teensy LC numbers 14..17. *)
Module Pin.
Definition rightX : Z := 14.               (* A0 *)
Definition rightY : Z := 15.               (* A1 *)
Definition rightJoystickButton : Z := 2.
Definition leftX : Z := 16.                (* A2 *)
Definition leftY : Z := 17.                (* A3 *)
Definition leftJoystickButton : Z := 3.
Definition backButton : Z := 4.
Definition ackButton : Z := 5.
Definition auxButton1 : Z := 6.
Definition auxButton2 : Z := 7.
End Pin.

Definition joyStickLowTrigger : Z := 400.
Definition joyStickHighTrigger : Z := 600.

Definition HIGH : bool := true.
Definition LOW : bool := false.

(** What the pins show during one call or one pass of a loop: the
    levels are taken to be steady for that long. *)
Record inputs : Type := {
  analogRead : Z -> Z;
  digitalRead : Z -> bool
}.

(** The globals the modelled functions use, the clock, the persistent
    bytes, and the packets given to [radio.write] (newest first). *)
Record transmitter : Type := {
  txData : dataPackage;
  previousSend : Z;              (* unsigned long *)
  lastButtonState : list bool;   (* bool[6] *)
  joystickHomed : list bool;     (* bool[4] *)
  EEPROM : Z -> Z;
  clock : Z;
  sent : list dataPackage
}.

Definition boot (eeprom : Z -> Z) : transmitter :=
  {| txData := defaultPackage idle; previousSend := 0;
     lastButtonState := [HIGH; HIGH; HIGH; HIGH; HIGH; HIGH];
     joystickHomed := [true; true; true; true];
     EEPROM := eeprom; clock := 0; sent := [] |}.

Definition millis (st : transmitter) : Z := to_uint32 (clock st).

(** [a[i] = v] on a C array held as a list. *)
Fixpoint array_set {A : Type} (i : nat) (v : A) (a : list A) : list A :=
  match a, i with
  | [], _ => []
  | _ :: a', O => v :: a'
  | x :: a', S i' => x :: array_set i' v a'
  end.

(** *** Field updates *)

Definition set_txData (p : dataPackage) (st : transmitter) : transmitter :=
  {| txData := p; previousSend := previousSend st;
     lastButtonState := lastButtonState st;
     joystickHomed := joystickHomed st; EEPROM := EEPROM st;
     clock := clock st; sent := sent st |}.

Definition set_previousSend (t : Z) (st : transmitter) : transmitter :=
  {| txData := txData st; previousSend := t;
     lastButtonState := lastButtonState st;
     joystickHomed := joystickHomed st; EEPROM := EEPROM st;
     clock := clock st; sent := sent st |}.

Definition set_lastButtonState (a : list bool) (st : transmitter)
  : transmitter :=
  {| txData := txData st; previousSend := previousSend st;
     lastButtonState := a;
     joystickHomed := joystickHomed st; EEPROM := EEPROM st;
     clock := clock st; sent := sent st |}.

Definition set_joystickHomed (a : list bool) (st : transmitter)
  : transmitter :=
  {| txData := txData st; previousSend := previousSend st;
     lastButtonState := lastButtonState st;
     joystickHomed := a; EEPROM := EEPROM st;
     clock := clock st; sent := sent st |}.

(** [EEPROM.update(address, value)]. *)
Definition EEPROM_update (address value : Z) (st : transmitter)
  : transmitter :=
  {| txData := txData st; previousSend := previousSend st;
     lastButtonState := lastButtonState st;
     joystickHomed := joystickHomed st;
     EEPROM := fun a => if a =? address then value else EEPROM st a;
     clock := clock st; sent := sent st |}.

Definition delay (ms : Z) (st : transmitter) : transmitter :=
  {| txData := txData st; previousSend := previousSend st;
     lastButtonState := lastButtonState st;
     joystickHomed := joystickHomed st; EEPROM := EEPROM st;
     clock := clock st + ms; sent := sent st |}.

(** [radio.write(&txData, sizeof(dataPackage))]. *)
Definition radio_write (st : transmitter) : transmitter :=
  {| txData := txData st; previousSend := previousSend st;
     lastButtonState := lastButtonState st;
     joystickHomed := joystickHomed st; EEPROM := EEPROM st;
     clock := clock st; sent := txData st :: sent st |}.

(** *** The program *)

(** Gather all current statuses of all input devices and send them to
    the RC car.  The argument only selects the send rate. *)
Definition sendData (io : inputs) (mode_arg : Z) (st : transmitter)
  : transmitter :=
  let sendDelay :=
    if (mode_arg =? idle) || (mode_arg =? debug) then 2000 else 0 in
  if to_uint32 (millis st - previousSend st) >=? sendDelay then
    let st := set_previousSend (millis st) st in
    let p := txData st in
    let p :=
      {| rightX := to_int16 (analogRead io Pin.rightX);
         rightY := to_int16 (analogRead io Pin.rightY);
         leftX := to_int16 (analogRead io Pin.leftX);
         leftY := to_int16 (analogRead io Pin.leftY);
         rightJoystickButton :=
           of_bool (negb (digitalRead io Pin.rightJoystickButton));
         leftJoystickButton :=
           of_bool (negb (digitalRead io Pin.leftJoystickButton));
         ackButton := of_bool (negb (digitalRead io Pin.ackButton));
         backButton := of_bool (negb (digitalRead io Pin.backButton));
         auxButton1 := of_bool (negb (digitalRead io Pin.auxButton1));
         auxButton2 := of_bool (negb (digitalRead io Pin.auxButton2));
         mode := mode p;
         throttleSensitifity := throttleSensitifity p;
         steerSensitifity := steerSensitifity p;
         brake := brake p; honk := honk p;
         headLight := headLight p; tailLight := tailLight p |} in
    radio_write (set_txData p st)
  else st.

(** The [switch] of [risingEdge]. *)
Definition button_index (button : Z) : option nat :=
  if button =? Pin.rightJoystickButton then Some 0%nat
  else if button =? Pin.leftJoystickButton then Some 1%nat
  else if button =? Pin.ackButton then Some 2%nat
  else if button =? Pin.backButton then Some 3%nat
  else if button =? Pin.auxButton1 then Some 4%nat
  else if button =? Pin.auxButton2 then Some 5%nat
  else None.

(** Rising edge detection function for all buttons. *)
Definition risingEdge (io : inputs) (button : Z) (st : transmitter)
  : bool * transmitter :=
  match button_index button with
  | None => (false, st)
  | Some index =>
      let buttonState := digitalRead io button in
      if negb (Bool.eqb buttonState (nth index (lastButtonState st) HIGH))
      then
        let st :=
          set_lastButtonState
            (array_set index buttonState (lastButtonState st)) st in
        if Bool.eqb buttonState LOW then (true, st)
        else (false, delay 2 st)
      else (false, delay 2 st)
  end.

(** The [switch] of [readJoystick]. *)
Definition joystick_index (joystick : Z) : option nat :=
  if joystick =? Pin.leftY then Some 0%nat
  else if joystick =? Pin.leftX then Some 1%nat
  else if joystick =? Pin.rightY then Some 2%nat
  else if joystick =? Pin.rightX then Some 3%nat
  else None.

(** Read joystick input for menu navigation.  If the joystick is not
    homed, output is suppressed. *)
Definition readJoystick (io : inputs) (joystick : Z) (st : transmitter)
  : Z * transmitter :=
  match joystick_index joystick with
  | None => (512, st)
  | Some index =>
      let st :=
        if (analogRead io joystick <? joyStickHighTrigger)
           && (analogRead io joystick >? joyStickLowTrigger)
        then set_joystickHomed (array_set index true (joystickHomed st)) st
        else st in
      if ((analogRead io joystick >? joyStickHighTrigger)
          || (analogRead io joystick <? joyStickLowTrigger))
         && Bool.eqb (nth index (joystickHomed st) true) true
      then
        (analogRead io joystick,
         set_joystickHomed (array_set index false (joystickHomed st)) st)
      else (512, st)
  end.

(** The statements of [drawProScreen] before its loop. *)
Definition drawProScreen_enter (st : transmitter) : transmitter :=
  let st := set_txData (set_mode pro (txData st)) st in
  let st :=
    set_txData
      (set_throttleSensitifity (to_int8 (EEPROM st 0)) (txData st)) st in
  set_txData (set_steerSensitifity (to_int8 (EEPROM st 1)) (txData st)) st.

(** The locals of [drawEditProSettings]. *)
Record edit : Type := {
  previousBlink : Z;        (* unsigned long *)
  scrollCooldown : Z;       (* unsigned long *)
  showCurrentValue : bool;
  valueHighlighted : bool;
  page : bool;              (* 0 = throttle, 1 = steering *)
  buffer : Z                (* byte *)
}.

(** The statements of [drawEditProSettings] before its loop. *)
Definition edit_enter (st : transmitter) : edit * transmitter :=
  let st := set_txData (set_mode idle (txData st)) st in
  ({| previousBlink := 0; scrollCooldown := 0;
      showCurrentValue := true; valueHighlighted := false;
      page := false;
      buffer := to_uint8 (throttleSensitifity (txData st)) |}, st).

(** Blinking of value when selected. *)
Definition edit_blink (now : Z) (e : edit) : edit :=
  if (to_uint32 (now - previousBlink e) >? 700) && valueHighlighted e then
    {| previousBlink := now; scrollCooldown := scrollCooldown e;
       showCurrentValue := negb (showCurrentValue e);
       valueHighlighted := valueHighlighted e;
       page := page e; buffer := buffer e |}
  else e.

(** Scrolling of the selected value. *)
Definition edit_scroll (io : inputs) (now : Z) (e : edit) : edit :=
  if to_uint32 (now - scrollCooldown e) >=? 100 then
    if valueHighlighted e
       && (analogRead io Pin.rightY >? joyStickHighTrigger)
       && (buffer e >? 5)
    then
      {| previousBlink := now; scrollCooldown := now;
         showCurrentValue := true;
         valueHighlighted := valueHighlighted e;
         page := page e; buffer := to_uint8 (buffer e - 5) |}
    else if valueHighlighted e
            && (analogRead io Pin.rightY <? joyStickLowTrigger)
            && (buffer e <? 100)
    then
      {| previousBlink := now; scrollCooldown := now;
         showCurrentValue := true;
         valueHighlighted := valueHighlighted e;
         page := page e; buffer := to_uint8 (buffer e + 5) |}
    else
      {| previousBlink := previousBlink e; scrollCooldown := now;
         showCurrentValue := showCurrentValue e;
         valueHighlighted := valueHighlighted e;
         page := page e; buffer := buffer e |}
  else e.

(** Let the user know that the value has been set. *)
Definition drawValueSet (st : transmitter) : transmitter := delay 500 st.

(** Button input.  The result is [None] when the loop is left by
    [break]. *)
Definition edit_buttons (io : inputs) (e : edit) (st : transmitter)
  : option edit * transmitter :=
  let '(ack, st) := risingEdge io Pin.ackButton st in
  if ack then
    if negb (valueHighlighted e) then
      (Some {| previousBlink := previousBlink e;
               scrollCooldown := scrollCooldown e;
               showCurrentValue := showCurrentValue e;
               valueHighlighted := true;
               page := page e; buffer := buffer e |}, st)
    else
      let st := EEPROM_update (of_bool (page e)) (buffer e) st in
      let st :=
        if negb (page e)
        then set_txData
               (set_throttleSensitifity (to_int8 (buffer e)) (txData st)) st
        else set_txData
               (set_steerSensitifity (to_int8 (buffer e)) (txData st)) st in
      let st := drawValueSet st in
      (Some {| previousBlink := previousBlink e;
               scrollCooldown := scrollCooldown e;
               showCurrentValue := true;
               valueHighlighted := false;
               page := page e; buffer := buffer e |}, st)
  else
    let '(back, st) := risingEdge io Pin.backButton st in
    if back then
      if negb (valueHighlighted e) then
        (None, set_txData (set_mode pro (txData st)) st)
      else
        (Some {| previousBlink := previousBlink e;
                 scrollCooldown := scrollCooldown e;
                 showCurrentValue := true;
                 valueHighlighted := false;
                 page := page e;
                 buffer := EEPROM st (of_bool (page e)) |}, st)
    else (Some e, st).

(** Switch edit tabs when the joystick is moved. *)
Definition edit_tabs (io : inputs) (e : edit) (st : transmitter)
  : edit * transmitter :=
  let '(joystickValue, st) := readJoystick io Pin.leftY st in
  if ((joystickValue >? joyStickHighTrigger)
      || (joystickValue <? joyStickLowTrigger))
     && negb (valueHighlighted e)
  then
    let page' := negb (page e) in
    ({| previousBlink := previousBlink e;
        scrollCooldown := scrollCooldown e;
        showCurrentValue := showCurrentValue e;
        valueHighlighted := valueHighlighted e;
        page := page';
        buffer :=
          if negb page'
          then to_uint8 (throttleSensitifity (txData st))
          else to_uint8 (steerSensitifity (txData st)) |}, st)
  else (e, st).

(** One pass of the [while (true)] of [drawEditProSettings]. *)
Definition edit_pass (io : inputs) (e : edit) (st : transmitter)
  : option edit * transmitter :=
  let st := sendData io debug st in
  let e := edit_blink (millis st) e in
  let e := edit_scroll io (millis st) e in
  match edit_buttons io e st with
  | (None, st) => (None, st)
  | (Some e, st) =>
      let '(e, st) := edit_tabs io e st in (Some e, st)
  end.

(** How [drawEditProSettings] stands after the passes it was given
    inputs for: still in its loop, or returned (with the inputs not
    consumed). *)
Inductive outcome : Type :=
| Running (e : edit) (st : transmitter)
| Returned (st : transmitter) (rest : list (Z * inputs)).

Definition state_of (o : outcome) : transmitter :=
  match o with Running _ st => st | Returned st _ => st end.

(** The loop, over the inputs of the successive passes; each pass comes
    with the time elapsed since the previous one. *)
Fixpoint edit_loop (passes : list (Z * inputs)) (e : edit)
  (st : transmitter) : outcome :=
  match passes with
  | [] => Running e st
  | (ms, io) :: rest =>
      match edit_pass io e (delay ms st) with
      | (None, st') => Returned st' rest
      | (Some e', st') => edit_loop rest e' st'
      end
  end.

Definition drawEditProSettings (passes : list (Z * inputs))
  (st : transmitter) : outcome :=
  let '(e, st) := edit_enter st in edit_loop passes e st.

(** Successive calls of [readJoystick] on one axis, one per element of
    [ios]. *)
Fixpoint readings (ios : list inputs) (joystick : Z) (st : transmitter)
  : list Z * transmitter :=
  match ios with
  | [] => ([], st)
  | io :: ios' =>
      let '(v, st) := readJoystick io joystick st in
      let '(vs, st) := readings ios' joystick st in
      (v :: vs, st)
  end.

(** Inputs with every analog pin at [a] and the two menu buttons at the
    given levels; the other buttons are released. *)
Definition pins (a : Z) (ack back : bool) : inputs :=
  {| analogRead := fun _ => a;
     digitalRead := fun pin =>
       if pin =? Pin.ackButton then ack
       else if pin =? Pin.backButton then back
       else HIGH |}.

(** Between [before] and [after] only packets with mode [m] were given
    to the radio. *)
Definition sends_only (m : Z) (before after : list dataPackage) : Prop :=
  exists new,
    after = new ++ before /\ Forall (fun p => mode p = m) new.

(** The locals of the editor on the given page with the given buffered
    value. *)
Definition editing (highlighted pg : bool) (value : Z) : edit :=
  {| previousBlink := 0; scrollCooldown := 0; showCurrentValue := true;
     valueHighlighted := highlighted; page := pg; buffer := value |}.

(** Persistent bytes with throttle 40 in slot 0 and steering 70 in
    slot 1. *)
Definition stored_40_70 (address : Z) : Z :=
  if address =? 0 then 40 else if address =? 1 then 70 else 255.

(** *** The screens *)

Definition set_honk (v : Z) (p : dataPackage) : dataPackage :=
  {| rightX := rightX p; leftX := leftX p; rightY := rightY p;
     leftY := leftY p; mode := mode p;
     throttleSensitifity := throttleSensitifity p;
     steerSensitifity := steerSensitifity p;
     rightJoystickButton := rightJoystickButton p;
     leftJoystickButton := leftJoystickButton p;
     ackButton := ackButton p; backButton := backButton p;
     auxButton1 := auxButton1 p; auxButton2 := auxButton2 p;
     brake := brake p; honk := v;
     headLight := headLight p; tailLight := tailLight p |}.

Definition set_brake (v : Z) (p : dataPackage) : dataPackage :=
  {| rightX := rightX p; leftX := leftX p; rightY := rightY p;
     leftY := leftY p; mode := mode p;
     throttleSensitifity := throttleSensitifity p;
     steerSensitifity := steerSensitifity p;
     rightJoystickButton := rightJoystickButton p;
     leftJoystickButton := leftJoystickButton p;
     ackButton := ackButton p; backButton := backButton p;
     auxButton1 := auxButton1 p; auxButton2 := auxButton2 p;
     brake := v; honk := honk p;
     headLight := headLight p; tailLight := tailLight p |}.

Definition set_headLight (v : Z) (p : dataPackage) : dataPackage :=
  {| rightX := rightX p; leftX := leftX p; rightY := rightY p;
     leftY := leftY p; mode := mode p;
     throttleSensitifity := throttleSensitifity p;
     steerSensitifity := steerSensitifity p;
     rightJoystickButton := rightJoystickButton p;
     leftJoystickButton := leftJoystickButton p;
     ackButton := ackButton p; backButton := backButton p;
     auxButton1 := auxButton1 p; auxButton2 := auxButton2 p;
     brake := brake p; honk := honk p;
     headLight := v; tailLight := tailLight p |}.

Definition set_tailLight (v : Z) (p : dataPackage) : dataPackage :=
  {| rightX := rightX p; leftX := leftX p; rightY := rightY p;
     leftY := leftY p; mode := mode p;
     throttleSensitifity := throttleSensitifity p;
     steerSensitifity := steerSensitifity p;
     rightJoystickButton := rightJoystickButton p;
     leftJoystickButton := leftJoystickButton p;
     ackButton := ackButton p; backButton := backButton p;
     auxButton1 := auxButton1 p; auxButton2 := auxButton2 p;
     brake := brake p; honk := honk p;
     headLight := headLight p; tailLight := v |}.

(** Reading all input devices and updating the car features, like:
    lights, horn, etc. *)
Definition updateAccessoires (io : inputs) (st : transmitter)
  : transmitter :=
  let st :=
    set_txData
      (set_honk
         (of_bool (Bool.eqb (digitalRead io Pin.rightJoystickButton) LOW))
         (txData st)) st in
  let '(edge, st) := risingEdge io Pin.leftJoystickButton st in
  let st :=
    if edge
    then set_txData
           (set_headLight (of_bool (negb (truthy (headLight (txData st)))))
              (txData st)) st
    else st in
  let '(edge, st) := risingEdge io Pin.auxButton2 st in
  let st :=
    if edge
    then set_txData
           (set_tailLight (of_bool (negb (truthy (tailLight (txData st)))))
              (txData st)) st
    else st in
  set_txData
    (set_brake (of_bool (Bool.eqb (digitalRead io Pin.auxButton1) LOW))
       (txData st)) st.

(** How a screen stands after the passes it was given inputs for: still
    shown, or left for the state it stored through its [state]
    pointer. *)
Inductive screen : Type :=
| Shown (st : transmitter)
| Left (next : Z) (st : transmitter) (rest : list (Z * inputs)).

Definition screen_state (o : screen) : transmitter :=
  match o with Shown st => st | Left _ st _ => st end.

(** The statements of [drawEasyScreen] before its loop. *)
Definition easy_enter (st : transmitter) : transmitter :=
  let st := set_txData (set_mode easy (txData st)) st in
  let st := set_txData (set_throttleSensitifity 40 (txData st)) st in
  set_txData (set_steerSensitifity 50 (txData st)) st.

(** The loop of [drawEasyScreen]: the condition
    [risingEdge(backButton) == false], then the body. *)
Fixpoint easy_loop (passes : list (Z * inputs)) (st : transmitter)
  : screen :=
  match passes with
  | [] => Shown st
  | (ms, io) :: rest =>
      let '(back, st) := risingEdge io Pin.backButton (delay ms st) in
      if back then Left idle st rest
      else
        let st := updateAccessoires io st in
        let st := sendData io easy st in
        easy_loop rest st
  end.

(** Draws all information for a beginning user. *)
Definition drawEasyScreen (passes : list (Z * inputs)) (st : transmitter)
  : screen :=
  easy_loop passes (easy_enter st).





(** The settings of the Easy screen. *)
Definition easy_settings (p : dataPackage) : Prop :=
  mode p = easy /\ throttleSensitifity p = 40 /\ steerSensitifity p = 50.



(** The two sensitivities of [txData] are the two persistent bytes. *)
Definition in_sync (st : transmitter) : Prop :=
  throttleSensitifity (txData st) = to_int8 (EEPROM st 0) /\
  steerSensitifity (txData st) = to_int8 (EEPROM st 1).

(** The arrays have their declared sizes. *)
Definition arrays_ok (st : transmitter) : Prop :=
  length (lastButtonState st) = 6%nat /\
  length (joystickHomed st) = 4%nat.

(** Inputs with every analog pin at [a] and every button at [level]. *)
Definition steady (a : Z) (level : bool) : inputs :=
  {| analogRead := fun _ => a; digitalRead := fun _ => level |}.

End Transmitter.

(** * Properties of the receiver *)

Module ReceiverProofs.
Import Receiver.

(** ** Validation *)

Lemma out_of_range_false (lo hi v : Z) :
  (v >? hi) || (v <? lo) = false <-> lo <= v <= hi.
Proof.
  rewrite orb_false_iff, Z.gtb_ltb, !Z.ltb_ge. lia.
Qed.

Lemma out_of_range_true (lo hi v : Z) :
  (v >? hi) || (v <? lo) = true <-> ~ lo <= v <= hi.
Proof.
  rewrite orb_true_iff, Z.gtb_ltb, !Z.ltb_lt. lia.
Qed.

Ltac range_case :=
  match goal with
  | |- context [if ?c then false else _] =>
      let E := fresh "E" in
      destruct c eqn:E;
      [ apply out_of_range_true in E;
        split; [discriminate | intros; exfalso; lia]
      | apply out_of_range_false in E ]
  end.

Lemma validateData_spec (p : dataPackage) :
  validateData p = true <-> numeric_domains p.
Proof.
  unfold validateData, numeric_domains, axis_domain, mode_domain,
    sensitivity_domain.
  repeat range_case.
  split; [intros _; lia | reflexivity].
Qed.

(** ** Reception *)

Lemma receiveData_none (st : receiver) : receiveData None st = st.
Proof. reflexivity. Qed.

Lemma receiveData_lastReceive (p : dataPackage) (st : receiver) :
  lastReceive (receiveData (Some p) st) = millis st.
Proof.
  unfold receiveData; simpl.
  destruct (validateData p); [|reflexivity].
  destruct (mode (rxData st) =? notConnected); reflexivity.
Qed.

Lemma receiveData_rejected (p : dataPackage) (st : receiver) :
  validateData p = false ->
  receiveData (Some p) st =
  write_receivedLED false
    (write_interferenceLED true
       (set_rawData p
          (set_lastReceive (millis st) (write_receivedLED true st)))).
Proof.
  intros H. unfold receiveData; simpl. rewrite H. reflexivity.
Qed.

Lemma receiveData_accepted (p : dataPackage) (st : receiver) :
  validateData p = true ->
  rxData (receiveData (Some p) st) = p.
Proof.
  intros H. unfold receiveData; simpl. rewrite H.
  destruct (mode (rxData st) =? notConnected); reflexivity.
Qed.

(** ** The interference LED is only ever written high *)

Ltac split_ifs :=
  repeat match goal with
         | |- context [if ?c then _ else _] => destruct c
         end.

Section Latch.
Variable st : receiver.
Hypothesis lit : pin_interferenceLED st = true.

Lemma latch_receiveData radio :
  pin_interferenceLED (receiveData radio st) = true.
Proof.
  destruct radio as [p|]; [|exact lit].
  unfold receiveData; simpl. split_ifs; simpl; auto.
Qed.

Lemma latch_isConnected : pin_interferenceLED (isConnected st) = true.
Proof. unfold isConnected. split_ifs; simpl; auto. Qed.

Lemma latch_updateAccessoires :
  pin_interferenceLED (updateAccessoires st) = true.
Proof. unfold updateAccessoires. split_ifs; simpl; auto. Qed.

Lemma latch_updatePwmDevices :
  pin_interferenceLED (updatePwmDevices st) = true.
Proof. exact lit. Qed.

Lemma latch_waitForRemote radio :
  pin_interferenceLED (waitForRemote radio st) = true.
Proof.
  unfold waitForRemote.
  assert (H : pin_interferenceLED
                (receiveData radio
                   (servo_write 90 (motorcontroller_write 90 st)))
              = true).
  { destruct radio as [p|]; [|exact lit].
    unfold receiveData; simpl. split_ifs; simpl; auto. }
  cbv zeta. split_ifs; simpl; auto.
Qed.
End Latch.

Lemma latch_loop (radio : option dataPackage) (st : receiver) :
  pin_interferenceLED st = true ->
  pin_interferenceLED (loop radio st) = true.
Proof.
  intros H. unfold loop, idleMode, easyMode, proMode, debugMode.
  cbv zeta. split_ifs; auto using latch_waitForRemote.
  - change (pin_interferenceLED
              (updateAccessoires (isConnected (receiveData radio st)))
            = true).
    auto using latch_receiveData, latch_isConnected,
      latch_updateAccessoires.
  - apply latch_updatePwmDevices, latch_updateAccessoires,
      latch_isConnected, latch_receiveData, H.
  - apply latch_updatePwmDevices, latch_updateAccessoires,
      latch_isConnected, latch_receiveData, H.
  - apply latch_isConnected, latch_receiveData, H.
Qed.

Lemma latch_run (tr : list event) (st : receiver) :
  pin_interferenceLED st = true ->
  pin_interferenceLED (run tr st) = true.
Proof.
  revert st. induction tr as [|ev tr IH]; intros st H; simpl; [exact H|].
  apply IH. destruct ev as [ms|radio]; simpl; [exact H|].
  apply latch_loop, H.
Qed.

(** ** Silent stretches leave the timestamp alone *)

Lemma isConnected_lastReceive (st : receiver) :
  lastReceive (isConnected st) = lastReceive st.
Proof. unfold isConnected. split_ifs; reflexivity. Qed.

Lemma updateAccessoires_lastReceive (st : receiver) :
  lastReceive (updateAccessoires st) = lastReceive st.
Proof. unfold updateAccessoires. split_ifs; reflexivity. Qed.

Lemma loop_none_lastReceive (st : receiver) :
  lastReceive (loop None st) = lastReceive st.
Proof.
  unfold loop, waitForRemote, idleMode, easyMode, proMode, debugMode.
  rewrite !receiveData_none. cbv zeta.
  split_ifs; simpl;
    rewrite ?updateAccessoires_lastReceive, ?isConnected_lastReceive;
    reflexivity.
Qed.

Lemma silent_run_lastReceive (tr : list event) (st : receiver) :
  Forall silent tr -> lastReceive (run tr st) = lastReceive st.
Proof.
  intros H. revert st.
  induction H as [|ev tr Hev _ IH]; intros st; simpl; [reflexivity|].
  rewrite IH. destruct ev as [ms|radio]; simpl in *; [reflexivity|].
  subst radio. apply loop_none_lastReceive.
Qed.

Lemma uint32_elapsed (now before : Z) :
  0 <= now - before < 2 ^ 32 ->
  to_uint32 (to_uint32 now - to_uint32 before) = now - before.
Proof.
  intros H. unfold to_uint32.
  rewrite <- Zminus_mod. apply Z.mod_small, H.
Qed.

Lemma isConnected_timeout (st : receiver) :
  to_uint32 (millis st - lastReceive st) > 3000 ->
  mode (rxData (isConnected st)) = notConnected.
Proof.
  intros H. unfold isConnected.
  destruct (Z.gtb_spec (to_uint32 (millis st - lastReceive st)) 3000);
    [reflexivity | lia].
Qed.

(** ** Actuator commands *)

Lemma servo_receiveData radio (st : receiver) :
  servo (receiveData radio st) = servo st.
Proof.
  destruct radio as [p|]; [|reflexivity].
  unfold receiveData; simpl. split_ifs; reflexivity.
Qed.

Lemma servo_isConnected (st : receiver) :
  servo (isConnected st) = servo st.
Proof. unfold isConnected. split_ifs; reflexivity. Qed.

Lemma servo_updateAccessoires (st : receiver) :
  servo (updateAccessoires st) = servo st.
Proof. unfold updateAccessoires. split_ifs; reflexivity. Qed.

Lemma rxData_updateAccessoires (st : receiver) :
  rxData (updateAccessoires st) = rxData st.
Proof. unfold updateAccessoires. split_ifs; reflexivity. Qed.

(** Whatever [updateAccessoires] wrote, [updatePwmDevices] writes the
    mapped throttle afterwards. *)
Lemma easyMode_motorcontroller radio (st : receiver) :
  let rx := rxData (isConnected (receiveData radio st)) in
  motorcontroller (easyMode radio st) =
  Some (position (rightY rx) (throttleSensitifity rx)).
Proof.
  unfold easyMode, updatePwmDevices; simpl.
  rewrite rxData_updateAccessoires. reflexivity.
Qed.

Lemma proMode_motorcontroller radio (st : receiver) :
  let rx := rxData (isConnected (receiveData radio st)) in
  motorcontroller (proMode radio st) =
  Some (position (rightY rx) (throttleSensitifity rx)).
Proof. exact (easyMode_motorcontroller radio st). Qed.

(** ** The mapping at the stick's centre *)

Lemma percent_all (f : Z -> bool) :
  forallb f percent = true -> forall s, 0 <= s <= 100 -> f s = true.
Proof.
  intros H s Hs. rewrite forallb_forall in H. apply H.
  unfold percent. apply in_map_iff. exists (Z.to_nat s).
  split; [lia | apply in_seq; lia].
Qed.

Lemma pwm_bounds (s : Z) :
  0 <= s <= 100 ->
  pwm_max s = 90 + 9 * s / 10 /\ pwm_min s = 90 - (9 * s + 9) / 10.
Proof.
  intros Hs.
  assert (H : ((pwm_max s =? 90 + 9 * s / 10)
               && (pwm_min s =? 90 - (9 * s + 9) / 10)) = true).
  { revert s Hs. apply percent_all. vm_compute. reflexivity. }
  apply andb_true_iff in H. destruct H as [H1 H2].
  split; apply Z.eqb_eq; assumption.
Qed.

Lemma centre_position (s : Z) :
  0 <= s <= 100 ->
  position 512 s = if s mod 10 =? 0 then 90 else 89.
Proof.
  intros Hs.
  assert (H : (position 512 s =? (if s mod 10 =? 0 then 90 else 89))
              = true).
  { revert s Hs. apply percent_all. vm_compute. reflexivity. }
  apply Z.eqb_eq, H.
Qed.

(** ** The claims about the receiver *)

(** C3, as stated, fails: a packet in which exactly one member, the
    [brake] byte, lies outside its domain is accepted. *)
Lemma validateData_accepts_odd_brake :
  numeric_domains odd_brake /\
  ~ bool_domain (brake odd_brake) /\
  (bool_domain (rightJoystickButton odd_brake) /\
   bool_domain (leftJoystickButton odd_brake) /\
   bool_domain (ackButton odd_brake) /\
   bool_domain (backButton odd_brake) /\
   bool_domain (auxButton1 odd_brake) /\
   bool_domain (auxButton2 odd_brake) /\
   bool_domain (honk odd_brake) /\
   bool_domain (headLight odd_brake) /\
   bool_domain (tailLight odd_brake)) /\
  validateData odd_brake = true.
Proof.
  unfold numeric_domains, axis_domain, mode_domain, sensitivity_domain,
    bool_domain; simpl.
  unfold easy.
  repeat split; try lia; left; reflexivity.
Qed.

(** C3 (amended): [validateData] returns true exactly for the packets
    whose four analog axes lie in [-1,1023], whose mode lies in
    {0,1,2,3} and whose two sensitivities lie in [-1,100]; it returns
    false as soon as one of these seven members is outside its domain,
    and the ten boolean members are not examined. *)
Theorem validateData_checks_the_numeric_members (p : dataPackage) :
  (validateData p = true <-> numeric_domains p) /\
  (validateData p = false <-> ~ numeric_domains p).
Proof.
  pose proof (validateData_spec p) as H.
  split; [exact H|].
  destruct (validateData p); split; intros H'.
  - discriminate H'.
  - exfalso. apply H'. apply H. reflexivity.
  - intros Hd. apply H in Hd. discriminate Hd.
  - reflexivity.
Qed.

(** C4: when a received packet fails validation, the active packet
    [rxData] keeps every one of its members. *)
Theorem rejected_packet_leaves_rxData (p : dataPackage) (st : receiver) :
  validateData p = false ->
  rxData (receiveData (Some p) st) = rxData st.
Proof.
  intros H. rewrite (receiveData_rejected p st H). reflexivity.
Qed.

Lemma rejected_packet_leaves_rxData_witness :
  validateData garbled = false /\
  rxData (receiveData (Some garbled) (driving (packet pro 200 900 80 50 0)))
  = packet pro 200 900 80 50 0.
Proof.
  split; [reflexivity|].
  apply (rejected_packet_leaves_rxData garbled
           (driving (packet pro 200 900 80 50 0))).
  reflexivity.
Defined.

(** C1, as stated, fails: after a packet is accepted in Easy mode,
    packets that fail validation arrive 2000 ms and 4000 ms later; at
    the link check 4500 ms after the acceptance no packet has passed
    validation for more than 3000 ms, and the mode is still Easy. *)
Lemma rejected_packets_postpone_the_timeout :
  let s1 := run [Pass (Some (packet easy 512 512 40 50 0))] boot in
  let s4 := run [Advance 2000; Pass (Some garbled);
                 Advance 2000; Pass (Some garbled);
                 Advance 500; Pass None] s1 in
  validateData garbled = false /\
  mode (rxData s1) = easy /\
  clock s4 - clock s1 = 4500 /\
  rxData s4 = rxData s1 /\
  mode (rxData s4) <> notConnected.
Proof.
  vm_compute. repeat split; discriminate.
Qed.

(** C1 (amended): the link-timeout timestamp is reset by every
    received packet, whether or not it passes validation; when no
    packet at all has arrived for more than 3000 ms (and less than the
    2^32 ms after which [millis] wraps), the next link check forces the
    mode to NotConnected. *)
Theorem timeout_counts_from_the_last_reception
  (st0 : receiver) (p : dataPackage) (tr : list event) :
  Forall silent tr ->
  3000 < clock (run tr (receiveData (Some p) st0)) - clock st0 < 2 ^ 32 ->
  lastReceive (receiveData (Some p) st0) = millis st0 /\
  mode (rxData (isConnected (run tr (receiveData (Some p) st0))))
  = notConnected.
Proof.
  intros Hs Ht. split; [apply receiveData_lastReceive|].
  apply isConnected_timeout.
  rewrite (silent_run_lastReceive tr _ Hs), receiveData_lastReceive.
  unfold millis. rewrite uint32_elapsed; lia.
Qed.

Lemma timeout_counts_from_the_last_reception_witness :
  let st0 := delay 100 (driving (packet easy 512 512 40 50 0)) in
  let tr := [Advance 2000; Pass None; Advance 1001] in
  (mode (rxData st0) = easy /\ lastReceive st0 = 0 /\ millis st0 = 100 /\
   validateData garbled = false /\
   mode (rxData (run tr (receiveData (Some garbled) st0))) = easy) /\
  lastReceive (receiveData (Some garbled) st0) = millis st0 /\
  mode (rxData (isConnected (run tr (receiveData (Some garbled) st0))))
  = notConnected.
Proof.
  split; [vm_compute; repeat split|].
  apply (timeout_counts_from_the_last_reception
           (delay 100 (driving (packet easy 512 512 40 50 0))) garbled
           [Advance 2000; Pass None; Advance 1001]).
  - repeat constructor.
  - vm_compute. split; reflexivity.
Defined.

(** C2 fails on the code: in Easy and in Pro mode, with the brake flag
    of the active packet set, throttle stick at 900 and throttle
    sensitivity 80, the motor controller's command at the end of the
    pass is the mapped throttle 144, not 0: [updateAccessoires] writes
    0 and [updatePwmDevices] then overwrites it. *)
Theorem brake_is_overwritten_by_the_throttle :
  truthy (brake (packet easy 512 900 80 50 1)) = true /\
  motorcontroller (updateAccessoires (driving (packet easy 512 900 80 50 1)))
  = Some 0 /\
  motorcontroller (loop None (driving (packet easy 512 900 80 50 1)))
  = Some 144 /\
  motorcontroller (loop None (driving (packet pro 512 900 80 50 1)))
  = Some 144.
Proof. vm_compute. repeat split. Qed.

(** C6, as stated, fails: the servo is left where Easy mode put it.
    The vehicle connects in Easy mode with the steering stick at 1023
    (servo at 135), then receives an Idle packet; in the Idle pass that
    follows the motor controller gets 90 and the servo still has
    135. *)
Lemma idle_pass_leaves_the_servo :
  let tr := [Pass (Some (packet easy 1023 512 40 50 0)); Pass None;
             Pass (Some (packet idle 1023 512 40 50 0))] in
  mode (rxData (run tr boot)) = idle /\
  motorcontroller (loop None (run tr boot)) = Some 90 /\
  servo (loop None (run tr boot)) = Some 135.
Proof. vm_compute. repeat split. Qed.

(** C6 (amended): in Idle mode every pass ends with the drive motor
    controller commanded to its neutral position 90; the steering servo
    is not commanded and keeps the command it had. *)
Theorem idleMode_stops_the_motor_only
  (radio : option dataPackage) (st : receiver) :
  motorcontroller (idleMode radio st) = Some 90 /\
  servo (idleMode radio st) = servo st.
Proof.
  unfold idleMode. split; [reflexivity|]. simpl.
  rewrite servo_updateAccessoires, servo_isConnected, servo_receiveData.
  reflexivity.
Qed.

(** C7, as stated, fails: a packet is rejected and the next packet is
    valid and accepted; the interference LED is still on after the
    acceptance. *)
Lemma interference_LED_stays_on :
  let good := packet easy 512 512 40 50 0 in
  let st := run [Pass (Some garbled); Pass (Some good)] boot in
  validateData garbled = false /\ validateData good = true /\
  rxData st = good /\ pin_interferenceLED st = true.
Proof. vm_compute. repeat split. Qed.

(** C7 (amended): the interference indicator is switched on when a
    packet is rejected and nothing ever switches it off: it stays on
    through every later pass, the acceptance of valid packets
    included. *)
Theorem interference_LED_latches
  (p : dataPackage) (st : receiver) (tr : list event) :
  validateData p = false ->
  pin_interferenceLED (run tr (receiveData (Some p) st)) = true.
Proof.
  intros H. apply latch_run.
  rewrite (receiveData_rejected p st H). reflexivity.
Qed.

Lemma interference_LED_latches_witness :
  validateData garbled = false /\
  pin_interferenceLED
    (run [Pass (Some (packet easy 512 512 40 50 0)); Advance 10; Pass None]
       (receiveData (Some garbled) boot)) = true.
Proof.
  split; [reflexivity|].
  apply (interference_LED_latches garbled boot
           [Pass (Some (packet easy 512 512 40 50 0)); Advance 10;
            Pass None]).
  reflexivity.
Defined.

(** C8, as stated, fails: with sensitivity 5 the bounds are 85 and 94
    (85.5 and 94.5 truncated) and the centred value 512 maps to 89. *)
Lemma centre_maps_to_89_at_sensitivity_5 :
  pwm_min 5 = 85 /\ pwm_max 5 = 94 /\ position 512 5 = 89 /\
  position 512 5 <> 90.
Proof. vm_compute. repeat split; discriminate. Qed.

(** C8 (amended): for every sensitivity s in [0,100] the mapping of the
    centred raw value 512 with neutral 90 yields 90 when s is a
    multiple of 10 and 89 otherwise. *)
Theorem centre_maps_to_neutral_or_one_below (s : Z) :
  0 <= s <= 100 ->
  position 512 s = if s mod 10 =? 0 then 90 else 89.
Proof. exact (centre_position s). Qed.

Lemma centre_maps_to_neutral_or_one_below_witness :
  0 <= 50 <= 100 /\ position 512 50 = 90.
Proof.
  split; [lia|].
  apply (centre_maps_to_neutral_or_one_below 50). lia.
Defined.

(** ** Further properties of the receiver *)

(** *** The mapping *)

Lemma pwm_uninitialized : pwm_min (-1) = 90 /\ pwm_max (-1) = 89.
Proof. vm_compute. split; reflexivity. Qed.

Lemma pwm_order (s : Z) :
  0 <= s <= 100 -> 0 <= pwm_min s /\ pwm_min s <= pwm_max s <= 180.
Proof.
  intros Hs. destruct (pwm_bounds s Hs) as [-> ->].
  assert ((9 * s + 9) / 10 < 91) by (apply Z.div_lt_upper_bound; lia).
  assert (9 * s / 10 < 91) by (apply Z.div_lt_upper_bound; lia).
  assert (0 <= (9 * s + 9) / 10) by (apply Z.div_pos; lia).
  assert (0 <= 9 * s / 10) by (apply Z.div_pos; lia).
  lia.
Qed.

Lemma map_between (raw lo hi : Z) :
  0 <= raw <= 1023 -> lo <= hi ->
  lo <= map raw 0 1023 lo hi <= hi.
Proof.
  intros Hr Hl. unfold map. rewrite !Z.sub_0_r.
  rewrite Z.quot_div_nonneg by nia.
  assert (0 <= raw * (hi - lo) / 1023) by (apply Z.div_pos; nia).
  assert (raw * (hi - lo) / 1023 <= hi - lo)
    by (apply Z.div_le_upper_bound; nia).
  lia.
Qed.

Lemma map_below_zero (lo hi : Z) :
  0 <= hi - lo < 1023 -> map (-1) 0 1023 lo hi = lo.
Proof.
  intros H. unfold map. rewrite !Z.sub_0_r.
  replace (-1 * (hi - lo)) with (- (hi - lo)) by lia.
  rewrite Z.quot_opp_l by lia. rewrite Z.quot_small by lia. lia.
Qed.

Lemma map_uninitialized_sensitivity (raw : Z) :
  -1 <= raw <= 1023 -> 89 <= map raw 0 1023 90 89 <= 90.
Proof.
  intros H. unfold map. rewrite !Z.sub_0_r.
  replace (raw * (89 - 90)) with (- raw) by lia.
  rewrite Z.quot_opp_l by lia.
  destruct (Z.eq_dec raw (-1)) as [->|].
  - vm_compute. split; discriminate.
  - rewrite Z.quot_div_nonneg by lia.
    assert (0 <= raw / 1023) by (apply Z.div_pos; lia).
    assert (raw / 1023 <= 1) by (apply Z.div_le_upper_bound; lia).
    lia.
Qed.

Lemma position_unwrapped (raw s : Z) :
  0 <= map raw 0 1023 (pwm_min s) (pwm_max s) <= 180 ->
  position raw s = map raw 0 1023 (pwm_min s) (pwm_max s).
Proof.
  intros H. unfold position, to_uint16. apply Z.mod_small. lia.
Qed.

Lemma map_in_range (raw s : Z) :
  axis_domain raw -> sensitivity_domain s ->
  0 <= map raw 0 1023 (pwm_min s) (pwm_max s) <= 180.
Proof.
  unfold axis_domain, sensitivity_domain. intros Hr Hs.
  destruct (Z.eq_dec s (-1)) as [->|Hn].
  - destruct pwm_uninitialized as [-> ->].
    pose proof (map_uninitialized_sensitivity raw Hr). lia.
  - pose proof (pwm_order s ltac:(lia)) as [H0 [H1 H2]].
    destruct (Z.eq_dec raw (-1)) as [->|Hr'].
    + rewrite map_below_zero by lia. lia.
    + pose proof (map_between raw (pwm_min s) (pwm_max s) ltac:(lia) H1).
      lia.
Qed.

Lemma position_range (raw s : Z) :
  axis_domain raw -> sensitivity_domain s ->
  0 <= position raw s <= 180.
Proof.
  intros Hr Hs. pose proof (map_in_range raw s Hr Hs) as H.
  rewrite (position_unwrapped raw s H). exact H.
Qed.

(** Whatever values a validated packet carries, the position computed
    for an axis is a servo angle. *)
Theorem position_in_servo_range (raw s : Z) :
  axis_domain raw -> sensitivity_domain s ->
  0 <= position raw s <= 180.
Proof.
  intros Hr Hs. unfold position, to_uint16.
  pose proof (map_in_range raw s Hr Hs) as H.
  rewrite Z.mod_small; lia.
Qed.

Lemma position_in_servo_range_witness :
  0 <= position (-1) (-1) <= 180.
Proof.
  apply (position_in_servo_range (-1) (-1));
    unfold axis_domain, sensitivity_domain; lia.
Defined.

(** Sensitivity 0 freezes the actuator at the middle, for every stick
    value. *)
Theorem position_frozen_at_sensitivity_0 (raw : Z) : position raw 0 = 90.
Proof.
  unfold position.
  replace (pwm_min 0) with 90 by (vm_compute; reflexivity).
  replace (pwm_max 0) with 90 by (vm_compute; reflexivity).
  unfold map. rewrite Z.sub_diag, Z.mul_0_r. reflexivity.
Qed.

(** For a sensitivity in 0..100 the position grows with the stick value,
    from the lower bound at 0 to the upper bound at 1023. *)
Theorem position_monotone (raw1 raw2 s : Z) :
  0 <= s <= 100 -> 0 <= raw1 -> raw1 <= raw2 -> raw2 <= 1023 ->
  pwm_min s = position 0 s /\
  position raw1 s <= position raw2 s /\
  position 1023 s = pwm_max s.
Proof.
  intros Hs H1 H12 H2.
  pose proof (pwm_order s Hs) as [H0 [Hl Hh]].
  assert (D : sensitivity_domain s) by (unfold sensitivity_domain; lia).
  assert (A : forall r, 0 <= r <= 1023 -> axis_domain r)
    by (unfold axis_domain; intros; lia).
  rewrite !position_unwrapped by (apply map_in_range; auto; apply A; lia).
  unfold map. rewrite !Z.sub_0_r.
  split; [rewrite Z.mul_0_l; reflexivity|].
  split.
  - apply Z.add_le_mono_r. apply Z.quot_le_mono; nia.
  - rewrite Z.mul_comm, Z.quot_mul by lia. lia.
Qed.

Lemma position_monotone_witness :
  pwm_min 100 = position 0 100 /\
  position 200 100 <= position 900 100 /\
  position 1023 100 = pwm_max 100.
Proof.
  apply (position_monotone 200 900 100); lia.
Defined.

(** *** One pass of the loop *)

Lemma motorcontroller_receiveData radio (st : receiver) :
  motorcontroller (receiveData radio st) = motorcontroller st.
Proof.
  destruct radio as [p|]; [|reflexivity].
  unfold receiveData; simpl. split_ifs; reflexivity.
Qed.

Lemma rxData_isConnected_fresh (p : dataPackage) (st : receiver) :
  validateData p = true -> mode (rxData st) <> notConnected ->
  rxData (isConnected (receiveData (Some p) st)) = p.
Proof.
  intros Hv Hm. unfold isConnected, receiveData; simpl.
  rewrite Hv. destruct (Z.eqb_spec (mode (rxData st)) notConnected);
    [contradiction|]. simpl.
  unfold millis; simpl. rewrite Z.sub_diag. reflexivity.
Qed.

Lemma valid_mode (p : dataPackage) :
  validateData p = true -> 0 <= mode p <= 3.
Proof.
  intros H. apply validateData_spec in H.
  unfold numeric_domains, mode_domain in H. tauto.
Qed.

Lemma rxData_updatePwmDevices (st : receiver) :
  rxData (updatePwmDevices st) = rxData st.
Proof. reflexivity. Qed.

Lemma rxData_motorcontroller_write (v : Z) (st : receiver) :
  rxData (motorcontroller_write v st) = rxData st.
Proof. reflexivity. Qed.

Ltac to_link_check :=
  rewrite ?rxData_updatePwmDevices, ?rxData_motorcontroller_write,
    ?rxData_updateAccessoires.

(** While not connected, every pass leaves both actuators at the
    middle, whatever the radio holds. *)
Theorem waiting_holds_both_actuators_neutral
  (radio : option dataPackage) (st : receiver) :
  mode (rxData st) = notConnected ->
  motorcontroller (loop radio st) = Some 90 /\
  servo (loop radio st) = Some 90.
Proof.
  intros H. unfold loop. rewrite H. simpl.
  unfold waitForRemote. cbv zeta.
  split_ifs; simpl;
    rewrite ?motorcontroller_receiveData, ?servo_receiveData;
    split; reflexivity.
Qed.

Lemma waiting_holds_both_actuators_neutral_witness :
  motorcontroller (loop (Some garbled) boot) = Some 90 /\
  servo (loop (Some garbled) boot) = Some 90.
Proof.
  apply (waiting_holds_both_actuators_neutral (Some garbled) boot).
  reflexivity.
Defined.

Lemma waitForRemote_rxData (radio : option dataPackage) (st : receiver) :
  rxData (waitForRemote radio st) =
  match radio with
  | Some p =>
      if validateData p then p else rxData st
  | None => rxData st
  end.
Proof.
  unfold waitForRemote. cbv zeta.
  assert (E : rxData (receiveData radio
                        (servo_write 90 (motorcontroller_write 90 st)))
              = match radio with
                | Some p => if validateData p then p else rxData st
                | None => rxData st
                end).
  { destruct radio as [p|]; [|reflexivity].
    unfold receiveData; simpl.
    destruct (validateData p); [|reflexivity].
    destruct (mode (rxData st) =? notConnected); reflexivity. }
  split_ifs; simpl; exact E.
Qed.

(** While not connected, the active packet changes only when a packet
    arrives that passes validation; that packet then becomes the active
    one. *)
Theorem waiting_ends_only_with_a_valid_packet
  (radio : option dataPackage) (st : receiver) :
  mode (rxData st) = notConnected ->
  rxData (loop radio st) =
  match radio with
  | Some p => if validateData p then p else rxData st
  | None => rxData st
  end.
Proof.
  intros H. unfold loop.
  destruct (Z.eqb_spec (mode (rxData st)) notConnected);
    [|contradiction].
  apply waitForRemote_rxData.
Qed.

Lemma waiting_ends_only_with_a_valid_packet_witness :
  rxData (loop (Some garbled) boot) = rxData boot.
Proof.
  apply (waiting_ends_only_with_a_valid_packet (Some garbled) boot).
  reflexivity.
Defined.

(** In every mode of the statemachine, a packet that passes validation
    is the active packet at the end of the pass: it is never timed out
    in the pass that receives it. *)
Theorem valid_packet_becomes_active (p : dataPackage) (st : receiver) :
  0 <= mode (rxData st) <= 4 ->
  validateData p = true ->
  rxData (loop (Some p) st) = p.
Proof.
  intros Hm Hv.
  destruct (Z.eq_dec (mode (rxData st)) notConnected) as [E|E].
  - unfold loop. rewrite E. simpl.
    rewrite waitForRemote_rxData, Hv. reflexivity.
  - pose proof (rxData_isConnected_fresh p st Hv E) as F.
    unfold loop, idleMode, easyMode, proMode, debugMode. cbv zeta.
    destruct (Z.eqb_spec (mode (rxData st)) notConnected);
      [contradiction|].
    unfold notConnected, idle, easy, pro, debug in *.
    destruct (Z.eqb_spec (mode (rxData st)) 0);
      [to_link_check; exact F|].
    destruct (Z.eqb_spec (mode (rxData st)) 1);
      [to_link_check; exact F|].
    destruct (Z.eqb_spec (mode (rxData st)) 2);
      [to_link_check; exact F|].
    destruct (Z.eqb_spec (mode (rxData st)) 3); [exact F | lia].
Qed.

Lemma valid_packet_becomes_active_witness :
  rxData (loop (Some (packet pro 200 900 80 50 0))
            (driving (packet easy 512 512 40 50 0)))
  = packet pro 200 900 80 50 0.
Proof.
  apply (valid_packet_becomes_active (packet pro 200 900 80 50 0)
           (driving (packet easy 512 512 40 50 0)));
    [simpl; unfold easy; lia | reflexivity].
Defined.

Lemma receiveData_cue (p : dataPackage) (st : receiver) :
  tones (receiveData (Some p) st)
  = (if validateData p && (mode (rxData st) =? notConnected)
     then (880, 500) :: (220, 500) :: tones st else tones st) /\
  clock (receiveData (Some p) st)
  = clock st
    + (if validateData p && (mode (rxData st) =? notConnected)
       then 1500 else 0).
Proof.
  unfold receiveData; simpl.
  destruct (validateData p); simpl; [|split; [reflexivity | lia]].
  destruct (mode (rxData st) =? notConnected); simpl;
    split; try reflexivity; lia.
Qed.

(** The two-tone cue is one-shot: the packet that ends the waiting
    plays 220 Hz then 880 Hz and blocks the loop for 1500 ms; a valid
    packet that follows it plays nothing and does not block. *)
Theorem reconnection_cue_is_one_shot (p1 p2 : dataPackage) (st : receiver) :
  mode (rxData st) = notConnected ->
  validateData p1 = true -> validateData p2 = true ->
  tones (receiveData (Some p1) st) = (880, 500) :: (220, 500) :: tones st /\
  clock (receiveData (Some p1) st) = clock st + 1500 /\
  tones (receiveData (Some p2) (receiveData (Some p1) st))
  = tones (receiveData (Some p1) st) /\
  clock (receiveData (Some p2) (receiveData (Some p1) st))
  = clock (receiveData (Some p1) st).
Proof.
  intros Hm H1 H2.
  assert (A : rxData (receiveData (Some p1) st) = p1)
    by (apply receiveData_accepted, H1).
  pose proof (valid_mode p1 H1) as M1.
  destruct (receiveData_cue p1 st) as [T1 C1].
  destruct (receiveData_cue p2 (receiveData (Some p1) st)) as [T2 C2].
  rewrite T2, C2, T1, C1, A, H1, H2, Hm.
  destruct (Z.eqb_spec (mode p1) notConnected);
    [unfold notConnected in *; lia|].
  simpl. repeat split; lia.
Qed.

Lemma reconnection_cue_is_one_shot_witness :
  tones (receiveData (Some (packet easy 512 512 40 50 0)) boot)
  = [(880, 500); (220, 500)] /\
  clock (receiveData (Some (packet easy 512 512 40 50 0)) boot) = 1500 /\
  tones (receiveData (Some (packet pro 200 900 80 50 0))
           (receiveData (Some (packet easy 512 512 40 50 0)) boot))
  = tones (receiveData (Some (packet easy 512 512 40 50 0)) boot) /\
  clock (receiveData (Some (packet pro 200 900 80 50 0))
           (receiveData (Some (packet easy 512 512 40 50 0)) boot))
  = clock (receiveData (Some (packet easy 512 512 40 50 0)) boot).
Proof.
  apply (reconnection_cue_is_one_shot (packet easy 512 512 40 50 0)
           (packet pro 200 900 80 50 0) boot); reflexivity.
Defined.

(** Link loss preempts every connected mode: with nothing in the radio
    and more than 3000 ms on the timer, the pass ends in NotConnected,
    whichever of Idle, Easy, Pro and Debug it started in. *)
Theorem link_loss_preempts_every_mode (st : receiver) :
  0 <= mode (rxData st) <= 3 ->
  to_uint32 (millis st - lastReceive st) > 3000 ->
  mode (rxData (loop None st)) = notConnected.
Proof.
  intros Hm Ht. pose proof (isConnected_timeout st Ht) as T.
  unfold loop, idleMode, easyMode, proMode, debugMode.
  rewrite !receiveData_none. cbv zeta.
  unfold notConnected, idle, easy, pro, debug in *.
  destruct (Z.eqb_spec (mode (rxData st)) 4); [lia|].
  destruct (Z.eqb_spec (mode (rxData st)) 0);
    [to_link_check; exact T|].
  destruct (Z.eqb_spec (mode (rxData st)) 1);
    [to_link_check; exact T|].
  destruct (Z.eqb_spec (mode (rxData st)) 2);
    [to_link_check; exact T|].
  destruct (Z.eqb_spec (mode (rxData st)) 3); [exact T | lia].
Qed.

Lemma link_loss_preempts_every_mode_witness :
  mode (rxData (loop None
                  (delay 3001 (driving (packet debug 512 512 40 50 0)))))
  = notConnected.
Proof.
  apply (link_loss_preempts_every_mode
           (delay 3001 (driving (packet debug 512 512 40 50 0)))).
  - simpl. unfold debug. lia.
  - vm_compute. reflexivity.
Defined.

(** *** Accessories *)

Lemma lights_updateAccessoires (st : receiver) :
  pin_headLight (updateAccessoires st) = truthy (headLight (rxData st)) /\
  pin_tailLight (updateAccessoires st) = truthy (tailLight (rxData st)).
Proof. unfold updateAccessoires. split_ifs; split; reflexivity. Qed.

Lemma lights_updatePwmDevices (st : receiver) :
  pin_headLight (updatePwmDevices st) = pin_headLight st /\
  pin_tailLight (updatePwmDevices st) = pin_tailLight st.
Proof. split; reflexivity. Qed.

(** In Idle, Easy and Pro mode the two light outputs at the end of a
    pass show the headLight and tailLight members of the packet that is
    active at the end of that pass. *)
Theorem lights_follow_the_active_packet
  (radio : option dataPackage) (st : receiver) :
  0 <= mode (rxData st) <= 2 ->
  pin_headLight (loop radio st)
  = truthy (headLight (rxData (loop radio st))) /\
  pin_tailLight (loop radio st)
  = truthy (tailLight (rxData (loop radio st))).
Proof.
  intros Hm.
  set (st1 := isConnected (receiveData radio st)).
  pose proof (lights_updateAccessoires st1) as [Lh Lt].
  unfold loop, idleMode, easyMode, proMode. cbv zeta. fold st1.
  unfold notConnected, idle, easy, pro in *.
  destruct (Z.eqb_spec (mode (rxData st)) 4); [lia|].
  destruct (Z.eqb_spec (mode (rxData st)) 0);
    [to_link_check; split; [exact Lh | exact Lt]|].
  destruct (lights_updatePwmDevices (updateAccessoires st1)) as [Ph Pt].
  destruct (Z.eqb_spec (mode (rxData st)) 1);
    [to_link_check; rewrite Ph, Pt; split; [exact Lh | exact Lt]|].
  destruct (Z.eqb_spec (mode (rxData st)) 2);
    [to_link_check; rewrite Ph, Pt; split; [exact Lh | exact Lt] | lia].
Qed.

Lemma lights_follow_the_active_packet_witness :
  let st := driving (packet easy 512 512 40 50 0) in
  (pin_headLight st = false /\ pin_tailLight st = false /\
   validateData lights_on = true /\
   pin_headLight (loop (Some lights_on) st) = true /\
   pin_tailLight (loop (Some lights_on) st) = true) /\
  pin_headLight (loop (Some lights_on) st)
  = truthy (headLight (rxData (loop (Some lights_on) st))) /\
  pin_tailLight (loop (Some lights_on) st)
  = truthy (tailLight (rxData (loop (Some lights_on) st))).
Proof.
  split; [vm_compute; repeat split|].
  apply (lights_follow_the_active_packet (Some lights_on)
           (driving (packet easy 512 512 40 50 0))).
  simpl. unfold easy. lia.
Defined.

Lemma outputs_receiveData radio (st : receiver) :
  pin_headLight (receiveData radio st) = pin_headLight st /\
  pin_tailLight (receiveData radio st) = pin_tailLight st.
Proof.
  destruct radio as [p|]; [|split; reflexivity].
  unfold receiveData; simpl. split_ifs; split; reflexivity.
Qed.

Lemma tones_receiveData_connected radio (st : receiver) :
  mode (rxData st) <> notConnected ->
  tones (receiveData radio st) = tones st.
Proof.
  intros H. destruct radio as [p|]; [|reflexivity].
  destruct (receiveData_cue p st) as [-> _].
  destruct (Z.eqb_spec (mode (rxData st)) notConnected);
    [contradiction|]. rewrite andb_false_r. reflexivity.
Qed.

(** Debug mode drives nothing: a pass in Debug mode leaves the two
    servo commands, the two lights and the horn as they were. *)
Theorem debug_mode_drives_nothing
  (radio : option dataPackage) (st : receiver) :
  mode (rxData st) = debug ->
  motorcontroller (loop radio st) = motorcontroller st /\
  servo (loop radio st) = servo st /\
  pin_headLight (loop radio st) = pin_headLight st /\
  pin_tailLight (loop radio st) = pin_tailLight st /\
  tones (loop radio st) = tones st.
Proof.
  intros H. unfold loop. rewrite H. simpl. unfold debugMode.
  destruct (outputs_receiveData radio st) as [Oh Ot].
  assert (T : tones (receiveData radio st) = tones st)
    by (apply tones_receiveData_connected; rewrite H; discriminate).
  unfold isConnected.
  split_ifs; simpl;
    rewrite ?motorcontroller_receiveData, ?servo_receiveData, ?Oh, ?Ot, ?T;
    repeat split; reflexivity.
Qed.

Lemma debug_mode_drives_nothing_witness :
  let st := driving (packet debug 512 512 40 50 1) in
  let p := packet debug 0 1023 100 100 1 in
  motorcontroller (loop (Some p) st) = motorcontroller st /\
  servo (loop (Some p) st) = servo st /\
  pin_headLight (loop (Some p) st) = pin_headLight st /\
  pin_tailLight (loop (Some p) st) = pin_tailLight st /\
  tones (loop (Some p) st) = tones st.
Proof.
  apply (debug_mode_drives_nothing (Some (packet debug 0 1023 100 100 1))
           (driving (packet debug 512 512 40 50 1))).
  reflexivity.
Defined.

(** *** What holds in every reachable state *)

Lemma valid_active (p : dataPackage) :
  validateData p = true -> active_ok p.
Proof.
  intros H. apply validateData_spec in H.
  unfold numeric_domains, active_ok, mode_domain in *. intuition lia.
Qed.

Lemma safe_receiveData radio (st : receiver) :
  safe st -> safe (receiveData radio st).
Proof.
  intros [Ha [Hm Hs]]. unfold safe.
  rewrite motorcontroller_receiveData, servo_receiveData.
  split; [|split; assumption].
  destruct radio as [p|]; [|exact Ha].
  destruct (validateData p) eqn:Hv.
  - rewrite (receiveData_accepted p st Hv). apply valid_active, Hv.
  - rewrite (receiveData_rejected p st Hv). exact Ha.
Qed.

Lemma safe_isConnected (st : receiver) : safe st -> safe (isConnected st).
Proof.
  intros [Ha [Hm Hs]]. unfold isConnected.
  split_ifs; [|split; [|split]; assumption].
  split; [|split; assumption].
  unfold active_ok in *. simpl. unfold notConnected. intuition lia.
Qed.

Lemma safe_updateAccessoires (st : receiver) :
  safe st -> safe (updateAccessoires st).
Proof.
  intros [Ha [Hm Hs]]. unfold safe.
  rewrite rxData_updateAccessoires, servo_updateAccessoires.
  split; [exact Ha|]. split; [|exact Hs].
  unfold updateAccessoires.
  split_ifs; simpl; try exact Hm; unfold upperBoundary; lia.
Qed.

Lemma safe_updatePwmDevices (st : receiver) :
  safe st -> safe (updatePwmDevices st).
Proof.
  intros [Ha _]. unfold safe. rewrite rxData_updatePwmDevices.
  split; [exact Ha|].
  unfold active_ok in Ha.
  destruct Ha as [_ [Hry [Hlx [_ [_ [Hts Hss]]]]]].
  unfold updatePwmDevices, command_ok, upperBoundary.
  split.
  - exact (position_range _ _ Hry Hts).
  - exact (position_range _ _ Hlx Hss).
Qed.

Lemma safe_motorcontroller_write_90 (st : receiver) :
  safe st -> safe (motorcontroller_write 90 st).
Proof.
  intros [Ha [_ Hs]]. split; [exact Ha|]. split; [|exact Hs].
  simpl. unfold upperBoundary. lia.
Qed.

Lemma safe_servo_write_90 (st : receiver) :
  safe st -> safe (servo_write 90 st).
Proof.
  intros [Ha [Hm _]]. split; [exact Ha|]. split; [exact Hm|].
  simpl. unfold upperBoundary. lia.
Qed.

Lemma safe_waitForRemote radio (st : receiver) :
  safe st -> safe (waitForRemote radio st).
Proof.
  intros H. unfold waitForRemote. cbv zeta.
  pose proof (safe_receiveData radio _
                (safe_servo_write_90 _
                   (safe_motorcontroller_write_90 _ H))) as H1.
  split_ifs; exact H1.
Qed.

Lemma safe_loop radio (st : receiver) : safe st -> safe (loop radio st).
Proof.
  intros H.
  pose proof (safe_isConnected _ (safe_receiveData radio _ H)) as H1.
  pose proof (safe_updateAccessoires _ H1) as H2.
  unfold loop, idleMode, easyMode, proMode, debugMode. cbv zeta.
  split_ifs;
    auto using safe_waitForRemote, safe_motorcontroller_write_90,
      safe_updatePwmDevices.
Qed.

Lemma safe_run (tr : list event) :
  forall st, safe st -> safe (run tr st).
Proof.
  induction tr as [|ev tr IH]; intros st H; simpl; [exact H|].
  apply IH. destruct ev as [ms|radio]; simpl.
  - exact H.
  - apply safe_loop, H.
Qed.

Lemma safe_boot : safe boot.
Proof.
  unfold safe, active_ok, axis_domain, sensitivity_domain,
    command_ok, boot, notConnected; simpl. lia.
Qed.

(** Whatever arrives over the radio and however time passes, in every
    state reached from power-up, and after every step of the pass that
    follows it (the reception and the link check, [updateAccessoires]
    with its brake command, [updatePwmDevices], the stop command of
    Idle mode, the whole pass of any mode), the values of the active
    packet used for driving lie in their domains, its mode is one of the
    five cases of the statemachine, and the command last given to the
    motor controller and to the servo lies in 0..180.  Each of these
    steps writes each device at most once, so this bounds every command
    the program gives. *)
Theorem reachable_states_are_safe
  (tr : list event) (radio : option dataPackage) :
  (active_ok (rxData (run tr boot)) /\
   command_ok (motorcontroller (run tr boot)) /\
   command_ok (servo (run tr boot))) /\
  safe (isConnected (receiveData radio (run tr boot))) /\
  safe (updateAccessoires
          (isConnected (receiveData radio (run tr boot)))) /\
  safe (updatePwmDevices
          (updateAccessoires
             (isConnected (receiveData radio (run tr boot))))) /\
  safe (motorcontroller_write 90
          (updateAccessoires
             (isConnected (receiveData radio (run tr boot))))) /\
  safe (waitForRemote radio (run tr boot)) /\
  safe (loop radio (run tr boot)).
Proof.
  pose proof (safe_run tr boot safe_boot) as H.
  pose proof (safe_isConnected _ (safe_receiveData radio _ H)) as H1.
  pose proof (safe_updateAccessoires _ H1) as H2.
  split; [exact H|].
  split; [exact H1|].
  split; [exact H2|].
  split; [apply safe_updatePwmDevices, H2|].
  split; [apply safe_motorcontroller_write_90, H2|].
  split; [apply safe_waitForRemote, H | apply safe_loop, H].
Qed.

(** The brake command is among the commands this bounds: from power-up,
    an Easy packet with the brake set is accepted, and in the pass that
    follows [updateAccessoires] gives the motor controller 0 before
    [updatePwmDevices] gives it the mapped throttle. *)
Example brake_command_is_reached :
  let st := run [Pass (Some (packet easy 512 900 80 50 1))] boot in
  motorcontroller
    (updateAccessoires (isConnected (receiveData None st))) = Some 0 /\
  motorcontroller
    (updatePwmDevices
       (updateAccessoires (isConnected (receiveData None st))))
  = Some 144.
Proof. vm_compute. split; reflexivity. Qed.

End ReceiverProofs.

(** * Properties of the sender *)

Module TransmitterProofs.
Import Transmitter.

Ltac split_ifs :=
  repeat match goal with
         | |- context [if ?c then _ else _] => destruct c
         end.

(** ** Arrays *)

Lemma nth_array_set_eq {A : Type} (i : nat) (v d : A) (a : list A) :
  (i < length a)%nat -> nth i (array_set i v a) d = v.
Proof.
  revert i. induction a as [|x a IH]; intros [|i] H; simpl in *;
    try lia; [reflexivity | apply IH; lia].
Qed.

Lemma nth_array_set_ne {A : Type} (i j : nat) (v d : A) (a : list A) :
  i <> j -> nth j (array_set i v a) d = nth j a d.
Proof.
  revert i j. induction a as [|x a IH]; intros [|i] [|j] H; simpl;
    try reflexivity; try congruence.
  apply IH. congruence.
Qed.

Lemma length_array_set {A : Type} (i : nat) (v : A) (a : list A) :
  length (array_set i v a) = length a.
Proof.
  revert i. induction a as [|x a IH]; intros [|i]; simpl;
    try reflexivity. rewrite IH. reflexivity.
Qed.

(** ** [readJoystick] *)

Section ReadJoystick.
Variables (io : inputs) (joystick : Z) (index : nat) (st : transmitter).
Hypothesis recognised : joystick_index joystick = Some index.

Lemma readJoystick_centre :
  joyStickLowTrigger < analogRead io joystick < joyStickHighTrigger ->
  readJoystick io joystick st =
  (512, set_joystickHomed (array_set index true (joystickHomed st)) st).
Proof.
  intros H. unfold readJoystick. rewrite recognised.
  destruct (Z.ltb_spec (analogRead io joystick) joyStickHighTrigger);
    [|lia].
  destruct (Z.gtb_spec (analogRead io joystick) joyStickLowTrigger);
    [|lia].
  destruct (Z.gtb_spec (analogRead io joystick) joyStickHighTrigger);
    [lia|].
  destruct (Z.ltb_spec (analogRead io joystick) joyStickLowTrigger);
    [lia|].
  reflexivity.
Qed.

Lemma readJoystick_deflected_homed :
  analogRead io joystick > joyStickHighTrigger
  \/ analogRead io joystick < joyStickLowTrigger ->
  nth index (joystickHomed st) true = true ->
  readJoystick io joystick st =
  (analogRead io joystick,
   set_joystickHomed (array_set index false (joystickHomed st)) st).
Proof.
  intros H Hh. unfold readJoystick. rewrite recognised.
  unfold joyStickHighTrigger, joyStickLowTrigger in *.
  destruct (Z.ltb_spec (analogRead io joystick) 600);
    destruct (Z.gtb_spec (analogRead io joystick) 400);
    destruct (Z.gtb_spec (analogRead io joystick) 600);
    destruct (Z.ltb_spec (analogRead io joystick) 400);
    try lia; simpl; rewrite Hh; reflexivity.
Qed.

Lemma readJoystick_deflected_unhomed :
  analogRead io joystick > joyStickHighTrigger
  \/ analogRead io joystick < joyStickLowTrigger ->
  nth index (joystickHomed st) true = false ->
  readJoystick io joystick st = (512, st).
Proof.
  intros H Hh. unfold readJoystick. rewrite recognised.
  unfold joyStickHighTrigger, joyStickLowTrigger in *.
  destruct (Z.ltb_spec (analogRead io joystick) 600);
    destruct (Z.gtb_spec (analogRead io joystick) 400);
    destruct (Z.gtb_spec (analogRead io joystick) 600);
    destruct (Z.ltb_spec (analogRead io joystick) 400);
    try lia; simpl; rewrite Hh; reflexivity.
Qed.
End ReadJoystick.

Lemma joystick_index_bound (joystick : Z) (index : nat) :
  joystick_index joystick = Some index -> (index < 4)%nat.
Proof.
  unfold joystick_index. split_ifs; intros H; inversion H; lia.
Qed.

(** ** The claims about [readJoystick] *)

Ltac side :=
  unfold joyStickLowTrigger, joyStickHighTrigger;
  first [ lia
        | simpl; apply nth_array_set_eq;
          rewrite ?length_array_set; assumption ].

(** C9: for a recognised axis that is homed, the consecutive samples
    550, 700, 700, 550, 700 make [readJoystick] return 512, 700, 512,
    512, 700: the real reading comes at the calls 1 and 4 only, and the
    sustained deflection of calls 1 and 2 gives one reading. *)
Theorem readJoystick_one_reading_per_deflection
  (joystick : Z) (index : nat) (st : transmitter) (ios : list inputs) :
  joystick_index joystick = Some index ->
  length (joystickHomed st) = 4%nat ->
  nth index (joystickHomed st) true = true ->
  List.map (fun io => analogRead io joystick) ios
  = [550; 700; 700; 550; 700] ->
  fst (readings ios joystick st) = [512; 700; 512; 512; 700].
Proof.
  intros Hi Hlen Hhomed Hs.
  pose proof (joystick_index_bound _ _ Hi) as Hb.
  destruct ios as [|io0 [|io1 [|io2 [|io3 [|io4 [|? ?]]]]]];
    try discriminate Hs.
  simpl in Hs. injection Hs as H0 H1 H2 H3 H4.
  assert (Hin : (index < length (joystickHomed st))%nat) by lia.
  unfold readings.
  rewrite (readJoystick_centre io0 joystick index _ Hi) by side.
  rewrite (readJoystick_deflected_homed io1 joystick index _ Hi) by side.
  rewrite (readJoystick_deflected_unhomed io2 joystick index _ Hi) by side.
  rewrite (readJoystick_centre io3 joystick index _ Hi) by side.
  rewrite (readJoystick_deflected_homed io4 joystick index _ Hi) by side.
  simpl. rewrite H1, H4. reflexivity.
Qed.

Lemma readJoystick_one_reading_per_deflection_witness :
  fst (readings
         [pins 550 HIGH HIGH; pins 700 HIGH HIGH; pins 700 HIGH HIGH;
          pins 550 HIGH HIGH; pins 700 HIGH HIGH]
         Pin.rightY (boot stored_40_70))
  = [512; 700; 512; 512; 700].
Proof.
  apply (readJoystick_one_reading_per_deflection Pin.rightY 2
           (boot stored_40_70)); reflexivity.
Defined.

(** ** What the helpers leave alone *)

Lemma risingEdge_frame (io : inputs) (button : Z) (st : transmitter) :
  txData (snd (risingEdge io button st)) = txData st /\
  sent (snd (risingEdge io button st)) = sent st /\
  EEPROM (snd (risingEdge io button st)) = EEPROM st.
Proof.
  unfold risingEdge.
  destruct (button_index button); [|auto].
  split_ifs; simpl; auto.
Qed.

Lemma risingEdge_true (io : inputs) (button : Z) (st : transmitter) :
  fst (risingEdge io button st) = true ->
  digitalRead io button = LOW /\
  exists index,
    button_index button = Some index /\
    nth index (lastButtonState st) HIGH = HIGH.
Proof.
  unfold risingEdge.
  destruct (button_index button) as [index|]; [|discriminate].
  destruct (digitalRead io button) eqn:Hd;
    destruct (nth index (lastButtonState st) HIGH) eqn:Hn;
    simpl; try discriminate.
  intros _. split; [reflexivity|]. exists index. auto.
Qed.

Lemma risingEdge_pressed
  (io : inputs) (button : Z) (index : nat) (st : transmitter) :
  button_index button = Some index ->
  digitalRead io button = LOW ->
  nth index (lastButtonState st) HIGH = HIGH ->
  risingEdge io button st =
  (true,
   set_lastButtonState (array_set index LOW (lastButtonState st)) st).
Proof.
  intros Hi Hd Hn. unfold risingEdge. rewrite Hi, Hd, Hn. reflexivity.
Qed.

Lemma risingEdge_other
  (io : inputs) (button : Z) (index j : nat) (st : transmitter) :
  button_index button = Some index -> index <> j ->
  nth j (lastButtonState (snd (risingEdge io button st))) HIGH
  = nth j (lastButtonState st) HIGH.
Proof.
  intros Hi Hj. unfold risingEdge. rewrite Hi.
  split_ifs; simpl; auto using nth_array_set_ne.
Qed.

Lemma readJoystick_frame (io : inputs) (joystick : Z) (st : transmitter) :
  txData (snd (readJoystick io joystick st)) = txData st /\
  sent (snd (readJoystick io joystick st)) = sent st.
Proof.
  unfold readJoystick.
  destruct (joystick_index joystick); [|auto].
  split_ifs; simpl; auto.
Qed.

Lemma sendData_frame (io : inputs) (m : Z) (st : transmitter) :
  mode (txData (sendData io m st)) = mode (txData st) /\
  lastButtonState (sendData io m st) = lastButtonState st /\
  (sent (sendData io m st) = sent st
   \/ sent (sendData io m st) = txData (sendData io m st) :: sent st).
Proof.
  unfold sendData. split_ifs; simpl; auto.
Qed.

Lemma edit_blink_highlighted (now : Z) (e : edit) :
  valueHighlighted (edit_blink now e) = valueHighlighted e.
Proof. unfold edit_blink. split_ifs; reflexivity. Qed.

Lemma edit_scroll_highlighted (io : inputs) (now : Z) (e : edit) :
  valueHighlighted (edit_scroll io now e) = valueHighlighted e.
Proof. unfold edit_scroll. split_ifs; reflexivity. Qed.

Lemma edit_tabs_frame (io : inputs) (e : edit) (st : transmitter) :
  txData (snd (edit_tabs io e st)) = txData st /\
  sent (snd (edit_tabs io e st)) = sent st.
Proof.
  unfold edit_tabs.
  pose proof (readJoystick_frame io Pin.leftY st) as H.
  destruct (readJoystick io Pin.leftY st) as [v st1]. simpl in H.
  split_ifs; exact H.
Qed.

(** ** The buttons of the editor *)

Lemma edit_buttons_spec (io : inputs) (e : edit) (st : transmitter) :
  sent (snd (edit_buttons io e st)) = sent st /\
  match fst (edit_buttons io e st) with
  | None =>
      mode (txData (snd (edit_buttons io e st))) = pro /\
      valueHighlighted e = false /\
      digitalRead io Pin.backButton = LOW /\
      nth 3 (lastButtonState st) HIGH = HIGH
  | Some _ =>
      mode (txData (snd (edit_buttons io e st))) = mode (txData st)
  end.
Proof.
  unfold edit_buttons.
  pose proof (risingEdge_frame io Pin.ackButton st) as [Ft [Fs _]].
  pose proof (risingEdge_other io Pin.ackButton 2 3 st eq_refl) as Fo.
  destruct (risingEdge io Pin.ackButton st) as [ack st1].
  simpl in Ft, Fs, Fo.
  destruct ack.
  - destruct (valueHighlighted e); simpl.
    + destruct (page e); simpl; rewrite Fs, Ft; auto.
    + rewrite Fs, Ft; auto.
  - pose proof (risingEdge_frame io Pin.backButton st1) as [Gt [Gs _]].
    pose proof (risingEdge_true io Pin.backButton st1) as Gb.
    destruct (risingEdge io Pin.backButton st1) as [back st2].
    simpl in Gt, Gs, Gb.
    destruct back.
    + destruct (valueHighlighted e); simpl.
      * rewrite Gs, Gt, Fs, Ft; auto.
      * rewrite Gs, Fs. split; [reflexivity|].
        split; [reflexivity|]. split; [reflexivity|].
        destruct (Gb eq_refl) as [Hd [index [Hi Hn]]].
        split; [exact Hd|].
        vm_compute in Hi. injection Hi as <-.
        rewrite <- Fo by discriminate. exact Hn.
    + simpl. rewrite Gs, Gt, Fs, Ft; auto.
Qed.

(** ** One pass, and the loop *)

Lemma sends_only_refl (m : Z) (l : list dataPackage) : sends_only m l l.
Proof. exists []. split; [reflexivity | constructor]. Qed.

Lemma sends_only_trans (m : Z) (a b c : list dataPackage) :
  sends_only m a b -> sends_only m b c -> sends_only m a c.
Proof.
  intros [n1 [E1 F1]] [n2 [E2 F2]]. exists (n2 ++ n1). split.
  - rewrite E2, E1. apply app_assoc.
  - apply Forall_app. split; assumption.
Qed.

Lemma edit_pass_spec (io : inputs) (e : edit) (st : transmitter) :
  sends_only (mode (txData st)) (sent st) (sent (snd (edit_pass io e st)))
  /\
  match fst (edit_pass io e st) with
  | None =>
      mode (txData (snd (edit_pass io e st))) = pro /\
      valueHighlighted e = false /\
      digitalRead io Pin.backButton = LOW /\
      nth 3 (lastButtonState st) HIGH = HIGH
  | Some _ =>
      mode (txData (snd (edit_pass io e st))) = mode (txData st)
  end.
Proof.
  unfold edit_pass.
  pose proof (sendData_frame io debug st) as [Sm [Sl Ss]].
  set (st1 := sendData io debug st) in *.
  set (e1 := edit_scroll io (millis st1) (edit_blink (millis st1) e)).
  assert (Hh : valueHighlighted e1 = valueHighlighted e).
  { subst e1. rewrite edit_scroll_highlighted. apply edit_blink_highlighted. }
  assert (Hsent : sends_only (mode (txData st)) (sent st) (sent st1)).
  { destruct Ss as [Ss|Ss]; rewrite Ss; [apply sends_only_refl|].
    exists [txData st1]. split; [reflexivity|].
    constructor; [exact Sm | constructor]. }
  pose proof (edit_buttons_spec io e1 st1) as [Bs Bm].
  destruct (edit_buttons io e1 st1) as [[e2|] st2]; simpl in Bs, Bm.
  - pose proof (edit_tabs_frame io e2 st2) as [Tt Ts].
    destruct (edit_tabs io e2 st2) as [e3 st3]; simpl in Tt, Ts |- *.
    rewrite Ts, Bs, Tt, Bm, Sm. split; [exact Hsent | reflexivity].
  - simpl. rewrite Bs. split; [exact Hsent|].
    destruct Bm as [B1 [B2 [B3 B4]]].
    rewrite <- Hh, <- Sl. auto.
Qed.

Lemma edit_loop_spec (passes : list (Z * inputs)) :
  forall (e : edit) (st : transmitter),
    mode (txData st) = idle ->
    sends_only idle (sent st) (sent (state_of (edit_loop passes e st))) /\
    match edit_loop passes e st with
    | Running _ st' => mode (txData st') = idle
    | Returned st' _ => mode (txData st') = pro
    end.
Proof.
  induction passes as [|[ms io] rest IH]; intros e st Hm; simpl.
  - split; [apply sends_only_refl | exact Hm].
  - pose proof (edit_pass_spec io e (delay ms st)) as [Ps Pm].
    destruct (edit_pass io e (delay ms st)) as [[e'|] st'];
      simpl in Ps, Pm; rewrite Hm in Ps.
    + destruct (IH e' st') as [Is Im]; [rewrite Pm; exact Hm|].
      split; [|exact Im].
      exact (sends_only_trans idle _ _ _ Ps Is).
    + simpl. split; [exact Ps | apply Pm].
Qed.

(** ** The claims about the settings editor *)

(** A session of the editor: highlight the throttle value, raise it
    twice by 5, commit it, leave with the back button. *)
Example edit_session :
  let passes :=
    [(10, pins 512 LOW HIGH); (10, pins 512 HIGH HIGH);
     (150, pins 300 HIGH HIGH); (150, pins 300 HIGH HIGH);
     (10, pins 512 LOW HIGH); (3000, pins 512 HIGH LOW)] in
  let o := drawEditProSettings passes
             (drawProScreen_enter (boot stored_40_70)) in
  o = Returned (state_of o) [] /\
  List.map mode (sent (state_of o)) = [idle] /\
  mode (txData (state_of o)) = pro /\
  throttleSensitifity (txData (state_of o)) = 50 /\
  EEPROM (state_of o) 0 = 50 /\ EEPROM (state_of o) 1 = 70.
Proof. vm_compute. repeat split. Qed.

(** C10: while [drawEditProSettings] runs, every packet it gives to the
    radio carries mode Idle and [txData.mode] stays Idle; the mode is
    Pro again once the function has returned, and a pass leaves the
    loop only when no value is highlighted and the back button shows a
    new press. *)
Theorem editor_transmits_idle_until_back
  (passes : list (Z * inputs)) (st : transmitter) :
  (exists new,
      sent (state_of (drawEditProSettings passes st)) = new ++ sent st /\
      Forall (fun p => mode p = idle) new) /\
  match drawEditProSettings passes st with
  | Running _ st' => mode (txData st') = idle
  | Returned st' _ => mode (txData st') = pro
  end /\
  (forall (io : inputs) (e : edit) (st1 : transmitter),
      match fst (edit_pass io e st1) with
      | None =>
          mode (txData (snd (edit_pass io e st1))) = pro /\
          valueHighlighted e = false /\
          digitalRead io Pin.backButton = LOW /\
          nth 3 (lastButtonState st1) HIGH = HIGH
      | Some _ =>
          mode (txData (snd (edit_pass io e st1))) = mode (txData st1)
      end).
Proof.
  unfold drawEditProSettings, edit_enter.
  destruct (edit_loop_spec passes
              (editing false false
                 (to_uint8 (throttleSensitifity (txData st))))
              (set_txData (set_mode idle (txData st)) st) eq_refl)
    as [Hs Hm].
  split; [exact Hs|]. split; [exact Hm|].
  intros io e st1. apply edit_pass_spec.
Qed.

(** C5, as stated, fails: with 40 in slot 0 and 70 in slot 1, entering
    Pro mode gives steering 70 (not the 40 of slot 0) and throttle 40
    (not the 70 of slot 1); committing 65 on the steering page writes
    slot 1 and leaves slot 0 at 40. *)
Lemma slot_0_holds_the_throttle :
  let st := drawProScreen_enter (boot stored_40_70) in
  let st' := snd (edit_buttons (pins 512 LOW HIGH) (editing true true 65)
                    st) in
  EEPROM st 0 = 40 /\ EEPROM st 1 = 70 /\
  steerSensitifity (txData st) <> to_int8 (EEPROM st 0) /\
  throttleSensitifity (txData st) <> to_int8 (EEPROM st 1) /\
  steerSensitifity (txData st') = 65 /\
  EEPROM st' 0 = 40 /\ EEPROM st' 1 = 65.
Proof. vm_compute. repeat split; discriminate. Qed.

(** C5 (amended): slot 0 holds the throttle sensitivity and slot 1 the
    steering sensitivity: entering Pro mode loads the throttle
    sensitivity from slot 0 and the steering sensitivity from slot 1,
    and the commit of the editor stores the buffered value to slot 0
    and to the throttle sensitivity on the throttle page, to slot 1 and
    to the steering sensitivity on the steering page, leaving the other
    slot as it was. *)
Theorem settings_slots
  (io : inputs) (e : edit) (st : transmitter) :
  valueHighlighted e = true ->
  digitalRead io Pin.ackButton = LOW ->
  nth 2 (lastButtonState st) HIGH = HIGH ->
  (throttleSensitifity (txData (drawProScreen_enter st))
   = to_int8 (EEPROM st 0) /\
   steerSensitifity (txData (drawProScreen_enter st))
   = to_int8 (EEPROM st 1)) /\
  (if page e then
     EEPROM (snd (edit_buttons io e st)) 1 = buffer e /\
     EEPROM (snd (edit_buttons io e st)) 0 = EEPROM st 0 /\
     steerSensitifity (txData (snd (edit_buttons io e st)))
     = to_int8 (buffer e)
   else
     EEPROM (snd (edit_buttons io e st)) 0 = buffer e /\
     EEPROM (snd (edit_buttons io e st)) 1 = EEPROM st 1 /\
     throttleSensitifity (txData (snd (edit_buttons io e st)))
     = to_int8 (buffer e)).
Proof.
  intros Hh Hd Hn. split; [split; reflexivity|].
  unfold edit_buttons.
  rewrite (risingEdge_pressed io Pin.ackButton 2 st eq_refl Hd Hn).
  rewrite Hh. destruct (page e); simpl; auto.
Qed.

Lemma settings_slots_witness :
  (throttleSensitifity
     (txData (drawProScreen_enter (boot stored_40_70))) = 40 /\
   steerSensitifity
     (txData (drawProScreen_enter (boot stored_40_70))) = 70) /\
  EEPROM (snd (edit_buttons (pins 512 LOW HIGH) (editing true false 65)
                 (boot stored_40_70))) 0 = 65 /\
  EEPROM (snd (edit_buttons (pins 512 LOW HIGH) (editing true false 65)
                 (boot stored_40_70))) 1 = 70 /\
  throttleSensitifity
    (txData (snd (edit_buttons (pins 512 LOW HIGH) (editing true false 65)
                    (boot stored_40_70)))) = 65.
Proof.
  apply (settings_slots (pins 512 LOW HIGH) (editing true false 65)
           (boot stored_40_70)); reflexivity.
Defined.

(** ** Further properties of the sender *)

(** *** [risingEdge] *)

Lemma button_index_range (button : Z) :
  ~ 2 <= button <= 7 -> button_index button = None.
Proof.
  intros H. unfold button_index, Pin.rightJoystickButton,
    Pin.leftJoystickButton, Pin.ackButton, Pin.backButton,
    Pin.auxButton1, Pin.auxButton2.
  repeat match goal with
         | |- context [?a =? ?b] => destruct (Z.eqb_spec a b); try lia
         end.
  reflexivity.
Qed.

Lemma joystick_index_range (joystick : Z) :
  ~ 14 <= joystick <= 17 -> joystick_index joystick = None.
Proof.
  intros H. unfold joystick_index, Pin.leftY, Pin.leftX, Pin.rightY,
    Pin.rightX.
  repeat match goal with
         | |- context [?a =? ?b] => destruct (Z.eqb_spec a b); try lia
         end.
  reflexivity.
Qed.

(** A pin that is not one of the six buttons, or not one of the four
    axes, gets the neutral answer ([false], 512) and changes nothing. *)
Theorem unknown_pins_get_the_neutral_answer
  (io : inputs) (button joystick : Z) (st : transmitter) :
  ~ 2 <= button <= 7 -> ~ 14 <= joystick <= 17 ->
  risingEdge io button st = (false, st) /\
  readJoystick io joystick st = (512, st).
Proof.
  intros Hb Hj. unfold risingEdge, readJoystick.
  rewrite (button_index_range button Hb).
  rewrite (joystick_index_range joystick Hj).
  split; reflexivity.
Qed.

Lemma unknown_pins_get_the_neutral_answer_witness :
  risingEdge (steady 700 LOW) 8 (boot stored_40_70)
  = (false, boot stored_40_70) /\
  readJoystick (steady 700 LOW) 20 (boot stored_40_70)
  = (512, boot stored_40_70).
Proof.
  apply (unknown_pins_get_the_neutral_answer (steady 700 LOW) 8 20
           (boot stored_40_70)); lia.
Defined.

Lemma risingEdge_value
  (io : inputs) (button : Z) (index : nat) (st : transmitter) :
  button_index button = Some index ->
  fst (risingEdge io button st)
  = nth index (lastButtonState st) HIGH && negb (digitalRead io button).
Proof.
  intros Hi. unfold risingEdge. rewrite Hi.
  destruct (digitalRead io button),
    (nth index (lastButtonState st) HIGH); reflexivity.
Qed.

Lemma risingEdge_stores
  (io : inputs) (button : Z) (index : nat) (st : transmitter) :
  button_index button = Some index ->
  (index < length (lastButtonState st))%nat ->
  nth index (lastButtonState (snd (risingEdge io button st))) HIGH
  = digitalRead io button.
Proof.
  intros Hi Hl. unfold risingEdge. rewrite Hi.
  destruct (digitalRead io button) eqn:Hd,
    (nth index (lastButtonState st) HIGH) eqn:Hn; simpl;
    rewrite ?nth_array_set_eq by exact Hl; auto.
Qed.

Lemma risingEdge_length (io : inputs) (button : Z) (st : transmitter) :
  length (lastButtonState (snd (risingEdge io button st)))
  = length (lastButtonState st).
Proof.
  unfold risingEdge. destruct (button_index button); [|reflexivity].
  split_ifs; simpl; rewrite ?length_array_set; reflexivity.
Qed.

(** [risingEdge] answers [true] exactly when the level it stored for
    the button is high and the button now reads low; it stores the level
    it read, so a button that is held answers [true] once. *)
Theorem risingEdge_answers_once_per_press
  (io io' : inputs) (button : Z) (index : nat) (st : transmitter) :
  button_index button = Some index ->
  (index < length (lastButtonState st))%nat ->
  digitalRead io' button = digitalRead io button ->
  fst (risingEdge io button st)
  = nth index (lastButtonState st) HIGH && negb (digitalRead io button) /\
  nth index (lastButtonState (snd (risingEdge io button st))) HIGH
  = digitalRead io button /\
  fst (risingEdge io' button (snd (risingEdge io button st))) = false.
Proof.
  intros Hi Hl Hsame.
  split; [apply risingEdge_value, Hi|].
  split; [apply risingEdge_stores; assumption|].
  rewrite (risingEdge_value io' button index _ Hi).
  rewrite (risingEdge_stores io button index st Hi Hl), Hsame.
  destruct (digitalRead io button); reflexivity.
Qed.

Lemma risingEdge_answers_once_per_press_witness :
  fst (risingEdge (steady 512 LOW) Pin.ackButton (boot stored_40_70))
  = true /\
  nth 2 (lastButtonState
           (snd (risingEdge (steady 512 LOW) Pin.ackButton
                   (boot stored_40_70)))) HIGH = LOW /\
  fst (risingEdge (steady 300 LOW) Pin.ackButton
         (snd (risingEdge (steady 512 LOW) Pin.ackButton
                 (boot stored_40_70)))) = false.
Proof.
  apply (risingEdge_answers_once_per_press (steady 512 LOW)
           (steady 300 LOW) Pin.ackButton 2 (boot stored_40_70));
    [reflexivity | simpl; lia | reflexivity].
Defined.

(** The debounce delay of 2 ms is taken exactly when [risingEdge]
    answers [false] for one of the six buttons; a detected press returns
    at once. *)
Theorem risingEdge_blocks_unless_pressed
  (io : inputs) (button : Z) (index : nat) (st : transmitter) :
  button_index button = Some index ->
  clock (snd (risingEdge io button st))
  = clock st + (if fst (risingEdge io button st) then 0 else 2).
Proof.
  intros Hi. unfold risingEdge. rewrite Hi.
  destruct (digitalRead io button),
    (nth index (lastButtonState st) HIGH); simpl; lia.
Qed.

Lemma risingEdge_blocks_unless_pressed_witness :
  clock (snd (risingEdge (steady 512 HIGH) Pin.backButton
                (boot stored_40_70)))
  = clock (boot stored_40_70)
    + (if fst (risingEdge (steady 512 HIGH) Pin.backButton
                 (boot stored_40_70)) then 0 else 2).
Proof.
  apply (risingEdge_blocks_unless_pressed (steady 512 HIGH)
           Pin.backButton 3 (boot stored_40_70)).
  reflexivity.
Defined.

(** *** [readJoystick] *)

(** The band's two limits belong to neither side: a sample of exactly
    400 or 600 neither re-arms the axis nor counts as a deflection. *)
Theorem readJoystick_ignores_the_trigger_values
  (io : inputs) (joystick : Z) (st : transmitter) :
  analogRead io joystick = joyStickLowTrigger
  \/ analogRead io joystick = joyStickHighTrigger ->
  readJoystick io joystick st = (512, st).
Proof.
  intros H. unfold readJoystick.
  destruct (joystick_index joystick) as [index|]; [|reflexivity].
  unfold joyStickLowTrigger, joyStickHighTrigger in *.
  destruct (Z.ltb_spec (analogRead io joystick) 600);
    destruct (Z.gtb_spec (analogRead io joystick) 400);
    destruct (Z.gtb_spec (analogRead io joystick) 600);
    destruct (Z.ltb_spec (analogRead io joystick) 400);
    try lia; reflexivity.
Qed.

Lemma readJoystick_ignores_the_trigger_values_witness :
  readJoystick (steady 600 HIGH) Pin.leftY
    (snd (readJoystick (steady 700 HIGH) Pin.leftY (boot stored_40_70)))
  = (512, snd (readJoystick (steady 700 HIGH) Pin.leftY
                 (boot stored_40_70))).
Proof.
  apply (readJoystick_ignores_the_trigger_values (steady 600 HIGH)
           Pin.leftY).
  right. reflexivity.
Defined.

(** *** [sendData] *)

Lemma to_uint32_nonneg (z : Z) : 0 <= to_uint32 z.
Proof. unfold to_uint32. apply Z.mod_pos_bound. lia. Qed.

Lemma sendData_sends (io : inputs) (m : Z) (st : transmitter) :
  to_uint32 (millis st - previousSend st)
  >= (if (m =? idle) || (m =? debug) then 2000 else 0) ->
  sent (sendData io m st) = txData (sendData io m st) :: sent st /\
  previousSend (sendData io m st) = millis st /\
  clock (sendData io m st) = clock st.
Proof.
  intros H. unfold sendData.
  destruct (Z.geb_spec (to_uint32 (millis st - previousSend st))
              (if (m =? idle) || (m =? debug) then 2000 else 0));
    [|lia].
  simpl. auto.
Qed.

Lemma sendData_unthrottled (io : inputs) (m : Z) (st : transmitter) :
  m <> idle -> m <> debug ->
  sent (sendData io m st) = txData (sendData io m st) :: sent st.
Proof.
  intros Hi Hd. apply sendData_sends.
  destruct (Z.eqb_spec m idle); [contradiction|].
  destruct (Z.eqb_spec m debug); [contradiction|].
  simpl. pose proof (to_uint32_nonneg (millis st - previousSend st)). lia.
Qed.

(** In Easy and Pro mode [sendData] transmits on every call. *)
Theorem sendData_is_unthrottled_when_driving
  (io : inputs) (m : Z) (st : transmitter) :
  m <> idle -> m <> debug ->
  sent (sendData io m st) = txData (sendData io m st) :: sent st.
Proof.
  intros Hi Hd. unfold sendData.
  destruct (Z.eqb_spec m idle); [contradiction|].
  destruct (Z.eqb_spec m debug); [contradiction|]. simpl.
  pose proof (to_uint32_nonneg (millis st - previousSend st)).
  destruct (Z.geb_spec (to_uint32 (millis st - previousSend st)) 0);
    [reflexivity | lia].
Qed.

Lemma sendData_is_unthrottled_when_driving_witness :
  sent (sendData (steady 512 HIGH) easy
          (sendData (steady 512 HIGH) easy (boot stored_40_70)))
  = txData (sendData (steady 512 HIGH) easy
              (sendData (steady 512 HIGH) easy (boot stored_40_70)))
    :: sent (sendData (steady 512 HIGH) easy (boot stored_40_70)).
Proof.
  apply (sendData_is_unthrottled_when_driving (steady 512 HIGH) easy
           (sendData (steady 512 HIGH) easy (boot stored_40_70)));
    discriminate.
Defined.

(** In Idle and Debug mode a transmission is followed by silence: a
    call less than 2000 ms after one that transmitted changes
    nothing. *)
Theorem sendData_is_throttled_in_the_menus
  (io io' : inputs) (m d : Z) (st : transmitter) :
  m = idle \/ m = debug ->
  to_uint32 (millis st - previousSend st) >= 2000 ->
  0 <= d < 2000 ->
  sent (sendData io m st) = txData (sendData io m st) :: sent st /\
  sendData io' m (delay d (sendData io m st)) = delay d (sendData io m st).
Proof.
  intros Hm Ht Hd.
  assert (E : (m =? idle) || (m =? debug) = true)
    by (destruct Hm as [-> | ->]; reflexivity).
  destruct (sendData_sends io m st) as [Hs [Hp Hc]];
    [rewrite E; exact Ht|].
  split; [exact Hs|].
  unfold sendData at 1. rewrite E.
  assert (F : to_uint32
                (millis (delay d (sendData io m st))
                 - previousSend (delay d (sendData io m st))) = d).
  { change (previousSend (delay d (sendData io m st)))
      with (previousSend (sendData io m st)).
    rewrite Hp. unfold millis. simpl. rewrite Hc.
    rewrite ReceiverProofs.uint32_elapsed; lia. }
  rewrite F. destruct (Z.geb_spec d 2000); [lia | reflexivity].
Qed.

Lemma sendData_is_throttled_in_the_menus_witness :
  let st := delay 2000 (boot stored_40_70) in
  sent (sendData (steady 512 HIGH) idle st)
  = txData (sendData (steady 512 HIGH) idle st) :: sent st /\
  sendData (steady 700 LOW) idle
    (delay 1999 (sendData (steady 512 HIGH) idle st))
  = delay 1999 (sendData (steady 512 HIGH) idle st).
Proof.
  apply (sendData_is_throttled_in_the_menus (steady 512 HIGH)
           (steady 700 LOW) idle 1999 (delay 2000 (boot stored_40_70))).
  - left. reflexivity.
  - vm_compute. discriminate.
  - lia.
Defined.

Lemma to_int16_sample (a : Z) : 0 <= a <= 1023 -> to_int16 a = a.
Proof.
  intros H. unfold to_int16. rewrite Z.mod_small by lia.
  destruct (Z.ltb_spec a 32768); [reflexivity | lia].
Qed.

(** With the four axes reading 0..1023 and the mode and sensitivities
    of [txData] in their domains, every packet [sendData] transmits
    passes the receiver's validation and carries 0 or 1 in each of its six
    button members. *)
Theorem sendData_packets_pass_validation
  (io : inputs) (m : Z) (st : transmitter) :
  (forall pin, 14 <= pin <= 17 -> 0 <= analogRead io pin <= 1023) ->
  Receiver.mode_domain (mode (txData st)) ->
  Receiver.sensitivity_domain (throttleSensitifity (txData st)) ->
  Receiver.sensitivity_domain (steerSensitifity (txData st)) ->
  sent (sendData io m st) = sent st \/
  exists p,
    sent (sendData io m st) = p :: sent st /\
    Receiver.validateData p = true /\
    Receiver.bool_domain (rightJoystickButton p) /\
    Receiver.bool_domain (leftJoystickButton p) /\
    Receiver.bool_domain (ackButton p) /\
    Receiver.bool_domain (backButton p) /\
    Receiver.bool_domain (auxButton1 p) /\
    Receiver.bool_domain (auxButton2 p).
Proof.
  intros Ha Hm Ht Hs. unfold sendData.
  destruct (_ >=? _); [right | left; reflexivity].
  eexists. split; [reflexivity|]. simpl.
  split.
  - apply ReceiverProofs.validateData_spec.
    unfold Receiver.numeric_domains, Receiver.axis_domain; simpl.
    rewrite !to_int16_sample
      by (apply Ha; unfold Pin.rightX, Pin.rightY, Pin.leftX, Pin.leftY;
          lia).
    pose proof (Ha Pin.rightX ltac:(unfold Pin.rightX; lia)).
    pose proof (Ha Pin.rightY ltac:(unfold Pin.rightY; lia)).
    pose proof (Ha Pin.leftX ltac:(unfold Pin.leftX; lia)).
    pose proof (Ha Pin.leftY ltac:(unfold Pin.leftY; lia)).
    repeat split; try lia; try apply Hm; try apply Ht; try apply Hs.
  - unfold Receiver.bool_domain.
    repeat split;
      match goal with
      | |- context [digitalRead io ?b] => destruct (digitalRead io b)
      end; simpl; auto.
Qed.

Lemma sendData_packets_pass_validation_witness :
  let st := drawProScreen_enter (boot stored_40_70) in
  sent (sendData (steady 1023 LOW) pro st) = sent st \/
  exists p,
    sent (sendData (steady 1023 LOW) pro st) = p :: sent st /\
    Receiver.validateData p = true /\
    Receiver.bool_domain (rightJoystickButton p) /\
    Receiver.bool_domain (leftJoystickButton p) /\
    Receiver.bool_domain (ackButton p) /\
    Receiver.bool_domain (backButton p) /\
    Receiver.bool_domain (auxButton1 p) /\
    Receiver.bool_domain (auxButton2 p).
Proof.
  apply (sendData_packets_pass_validation (steady 1023 LOW) pro
           (drawProScreen_enter (boot stored_40_70)));
    intros; first [ simpl; lia | vm_compute; split; discriminate ].
Defined.

(** *** [updateAccessoires] *)

Lemma eqb_LOW (b : bool) : Bool.eqb b LOW = negb b.
Proof. destruct b; reflexivity. Qed.

Lemma updateAccessoires_spec (io : inputs) (st : transmitter) :
  honk (txData (updateAccessoires io st))
  = of_bool (negb (digitalRead io Pin.rightJoystickButton)) /\
  brake (txData (updateAccessoires io st))
  = of_bool (negb (digitalRead io Pin.auxButton1)) /\
  headLight (txData (updateAccessoires io st))
  = (if nth 1 (lastButtonState st) HIGH
        && negb (digitalRead io Pin.leftJoystickButton)
     then of_bool (negb (truthy (headLight (txData st))))
     else headLight (txData st)) /\
  tailLight (txData (updateAccessoires io st))
  = (if nth 5 (lastButtonState st) HIGH
        && negb (digitalRead io Pin.auxButton2)
     then of_bool (negb (truthy (tailLight (txData st))))
     else tailLight (txData st)) /\
  (mode (txData (updateAccessoires io st)) = mode (txData st) /\
   throttleSensitifity (txData (updateAccessoires io st))
   = throttleSensitifity (txData st) /\
   steerSensitifity (txData (updateAccessoires io st))
   = steerSensitifity (txData st) /\
   sent (updateAccessoires io st) = sent st) /\
  length (lastButtonState (updateAccessoires io st))
  = length (lastButtonState st) /\
  (length (lastButtonState st) = 6%nat ->
   nth 1 (lastButtonState (updateAccessoires io st)) HIGH
   = digitalRead io Pin.leftJoystickButton /\
   nth 5 (lastButtonState (updateAccessoires io st)) HIGH
   = digitalRead io Pin.auxButton2).
Proof.
  unfold updateAccessoires. rewrite !eqb_LOW.
  set (st0 := set_txData _ st).
  pose proof (risingEdge_value io Pin.leftJoystickButton 1 st0 eq_refl)
    as V1.
  pose proof (risingEdge_frame io Pin.leftJoystickButton st0)
    as [F1 [S1 _]].
  pose proof (risingEdge_length io Pin.leftJoystickButton st0) as L1.
  pose proof (risingEdge_other io Pin.leftJoystickButton 1 5 st0 eq_refl
                ltac:(discriminate)) as O1.
  pose proof (risingEdge_stores io Pin.leftJoystickButton 1 st0 eq_refl)
    as T1.
  destruct (risingEdge io Pin.leftJoystickButton st0) as [e1 st1].
  simpl in V1, F1, S1, L1, O1, T1.
  set (st1' := if e1 then set_txData _ st1 else st1).
  assert (B1 : lastButtonState st1' = lastButtonState st1)
    by (subst st1'; destruct e1; reflexivity).
  assert (N1 : sent st1' = sent st1)
    by (subst st1'; destruct e1; reflexivity).
  pose proof (risingEdge_value io Pin.auxButton2 5 st1' eq_refl) as V2.
  pose proof (risingEdge_frame io Pin.auxButton2 st1') as [F2 [S2 _]].
  pose proof (risingEdge_length io Pin.auxButton2 st1') as L2.
  pose proof (risingEdge_other io Pin.auxButton2 5 1 st1' eq_refl
                ltac:(discriminate)) as O2.
  pose proof (risingEdge_stores io Pin.auxButton2 5 st1' eq_refl) as T2.
  destruct (risingEdge io Pin.auxButton2 st1') as [e2 st2].
  simpl in V2, F2, S2, L2, O2, T2.
  rewrite B1 in V2, L2, O2, T2.
  repeat apply conj; [ | | | | | | | | | intros H6; split ].
  - destruct e2; simpl; rewrite F2; subst st1';
      destruct e1; simpl; rewrite F1; reflexivity.
  - destruct e2; reflexivity.
  - destruct e2; simpl; rewrite F2; subst st1'; rewrite V1;
      destruct (nth 1 (lastButtonState st) HIGH
                && negb (digitalRead io Pin.leftJoystickButton));
      simpl; rewrite F1; reflexivity.
  - rewrite V2, O1.
    destruct (nth 5 (lastButtonState st) HIGH
              && negb (digitalRead io Pin.auxButton2));
      simpl; rewrite F2; subst st1'; destruct e1; simpl; rewrite F1;
      reflexivity.
  - destruct e2; simpl; rewrite F2; subst st1';
      destruct e1; simpl; rewrite F1; reflexivity.
  - destruct e2; simpl; rewrite F2; subst st1';
      destruct e1; simpl; rewrite F1; reflexivity.
  - destruct e2; simpl; rewrite F2; subst st1';
      destruct e1; simpl; rewrite F1; reflexivity.
  - destruct e2; simpl; rewrite S2, N1, S1; reflexivity.
  - destruct e2; simpl; rewrite L2, L1; reflexivity.
  - destruct e2; simpl; rewrite O2; apply T1; rewrite H6; lia.
  - destruct e2; simpl; apply T2; rewrite L1, H6; lia.
Qed.

(** The horn and the brake follow the level of their buttons at every
    call; each light is inverted when its button reads low after having
    been stored high, and is left alone otherwise. *)
Theorem accessories_are_sampled_or_toggled
  (io : inputs) (st : transmitter) :
  honk (txData (updateAccessoires io st))
  = of_bool (negb (digitalRead io Pin.rightJoystickButton)) /\
  brake (txData (updateAccessoires io st))
  = of_bool (negb (digitalRead io Pin.auxButton1)) /\
  headLight (txData (updateAccessoires io st))
  = (if nth 1 (lastButtonState st) HIGH
        && negb (digitalRead io Pin.leftJoystickButton)
     then of_bool (negb (truthy (headLight (txData st))))
     else headLight (txData st)) /\
  tailLight (txData (updateAccessoires io st))
  = (if nth 5 (lastButtonState st) HIGH
        && negb (digitalRead io Pin.auxButton2)
     then of_bool (negb (truthy (tailLight (txData st))))
     else tailLight (txData st)).
Proof.
  destruct (updateAccessoires_spec io st) as [H1 [H2 [H3 [H4 _]]]].
  auto.
Qed.

(** A light button that is held toggles its light once: with the
    buttons reading the same in two calls that follow each other, the
    second call leaves both lights as the first one set them. *)
Theorem held_buttons_toggle_the_lights_once
  (io io' : inputs) (st : transmitter) :
  length (lastButtonState st) = 6%nat ->
  digitalRead io' Pin.leftJoystickButton
  = digitalRead io Pin.leftJoystickButton ->
  digitalRead io' Pin.auxButton2 = digitalRead io Pin.auxButton2 ->
  headLight (txData (updateAccessoires io' (updateAccessoires io st)))
  = headLight (txData (updateAccessoires io st)) /\
  tailLight (txData (updateAccessoires io' (updateAccessoires io st)))
  = tailLight (txData (updateAccessoires io st)).
Proof.
  intros Hl Hh Ht.
  destruct (updateAccessoires_spec io st) as [_ [_ [_ [_ [_ [_ Hn]]]]]].
  destruct (Hn Hl) as [N1 N5].
  destruct (updateAccessoires_spec io' (updateAccessoires io st))
    as [_ [_ [-> [-> _]]]].
  rewrite N1, N5, Hh, Ht.
  destruct (digitalRead io Pin.leftJoystickButton),
    (digitalRead io Pin.auxButton2); split; reflexivity.
Qed.

Lemma held_buttons_toggle_the_lights_once_witness :
  let st1 := updateAccessoires (steady 512 LOW) (boot stored_40_70) in
  headLight (txData st1) = 1 /\
  headLight (txData (updateAccessoires (steady 900 LOW) st1))
  = headLight (txData st1) /\
  tailLight (txData (updateAccessoires (steady 900 LOW) st1))
  = tailLight (txData st1).
Proof.
  split; [reflexivity|].
  apply (held_buttons_toggle_the_lights_once (steady 512 LOW)
           (steady 900 LOW) (boot stored_40_70)); reflexivity.
Defined.

(** *** The Easy screen and the menu *)

Lemma sendData_keeps (io : inputs) (m : Z) (st : transmitter) :
  mode (txData (sendData io m st)) = mode (txData st) /\
  throttleSensitifity (txData (sendData io m st))
  = throttleSensitifity (txData st) /\
  steerSensitifity (txData (sendData io m st))
  = steerSensitifity (txData st) /\
  EEPROM (sendData io m st) = EEPROM st.
Proof. unfold sendData. split_ifs; simpl; auto. Qed.

Lemma easy_loop_spec (passes : list (Z * inputs)) :
  forall st : transmitter,
    easy_settings (txData st) ->
    exists new,
      sent (screen_state (easy_loop passes st)) = new ++ sent st /\
      Forall easy_settings new /\
      match easy_loop passes st with
      | Shown _ => length new = length passes
      | Left next _ rest =>
          next = idle /\ (length new + length rest + 1)%nat = length passes
      end.
Proof.
  induction passes as [|[ms io] rest IH]; intros st K; simpl.
  - exists []. split; [reflexivity|]. split; [constructor | reflexivity].
  - pose proof (risingEdge_frame io Pin.backButton (delay ms st))
      as [Ft [Fs _]].
    destruct (risingEdge io Pin.backButton (delay ms st)) as [back st1].
    simpl in Ft, Fs.
    destruct back; simpl.
    + exists []. rewrite Fs. split; [reflexivity|].
      split; [constructor|]. split; [reflexivity | simpl; lia].
    + destruct (updateAccessoires_spec io st1)
        as [_ [_ [_ [_ [[Um [Ut [Us Un]]] _]]]]].
      set (st2 := updateAccessoires io st1) in *.
      destruct (sendData_keeps io easy st2) as [Sm [St [Ss _]]].
      pose proof (sendData_unthrottled io easy st2
                    ltac:(discriminate) ltac:(discriminate)) as Sn.
      set (st3 := sendData io easy st2) in *.
      assert (K3 : easy_settings (txData st3)).
      { unfold easy_settings in *.
        rewrite Sm, St, Ss, Um, Ut, Us, Ft. exact K. }
      destruct (IH st3 K3) as [new [E [F M]]].
      exists (new ++ [txData st3]). split; [|split].
      * rewrite E, Sn, Un, Fs, <- app_assoc. reflexivity.
      * apply Forall_app. split; [exact F|].
        constructor; [exact K3 | constructor].
      * rewrite length_app. simpl.
        destruct (easy_loop rest st3); [lia|].
        destruct M as [M1 M2]. split; [exact M1 | lia].
Qed.

(** The Easy screen transmits once in every pass of its loop, and every
    packet carries mode Easy, throttle sensitivity 40 and steering
    sensitivity 50; the screen is left for the menu. *)
Theorem easy_screen_sends_its_fixed_settings
  (passes : list (Z * inputs)) (st : transmitter) :
  exists new,
    sent (screen_state (drawEasyScreen passes st)) = new ++ sent st /\
    Forall (fun p => mode p = easy /\ throttleSensitifity p = 40
                     /\ steerSensitifity p = 50) new /\
    match drawEasyScreen passes st with
    | Shown _ => length new = length passes
    | Left next _ rest =>
        next = idle /\ (length new + length rest + 1)%nat = length passes
    end.
Proof.
  unfold drawEasyScreen.
  destruct (easy_loop_spec passes (easy_enter st)) as [new H].
  - repeat split.
  - exists new. exact H.
Qed.

Lemma readJoystick_keeps (io : inputs) (joystick : Z) (st : transmitter) :
  EEPROM (snd (readJoystick io joystick st)) = EEPROM st /\
  lastButtonState (snd (readJoystick io joystick st)) = lastButtonState st.
Proof.
  unfold readJoystick.
  destruct (joystick_index joystick); [|auto].
  split_ifs; simpl; auto.
Qed.





(** *** The settings editor *)

Lemma edit_tabs_eeprom (io : inputs) (e : edit) (st : transmitter) :
  EEPROM (snd (edit_tabs io e st)) = EEPROM st.
Proof.
  unfold edit_tabs.
  pose proof (readJoystick_keeps io Pin.leftY st) as [H _].
  destruct (readJoystick io Pin.leftY st) as [v st1]. simpl in H.
  split_ifs; exact H.
Qed.

Ltac done_scroll :=
  repeat apply conj; auto; try lia; try discriminate.

(** Scrolling moves the buffered value in steps of 5 and keeps it
    between 5 and 100; while no value is highlighted it does not move
    at all. *)
Theorem edit_scroll_stays_between_5_and_100
  (io : inputs) (now : Z) (e : edit) :
  5 <= buffer e <= 100 -> buffer e mod 5 = 0 ->
  5 <= buffer (edit_scroll io now e) <= 100 /\
  buffer (edit_scroll io now e) mod 5 = 0 /\
  (buffer (edit_scroll io now e) = buffer e
   \/ buffer (edit_scroll io now e) = buffer e - 5
   \/ buffer (edit_scroll io now e) = buffer e + 5) /\
  (valueHighlighted e = false ->
   buffer (edit_scroll io now e) = buffer e).
Proof.
  intros Hb Hm.
  assert (H10 : buffer e <> 5 -> 10 <= buffer e).
  { intros Hn. pose proof (Z.div_mod (buffer e) 5 ltac:(lia)) as D.
    rewrite Hm in D. lia. }
  assert (H95 : buffer e <> 100 -> buffer e <= 95).
  { intros Hn. pose proof (Z.div_mod (buffer e) 5 ltac:(lia)) as D.
    rewrite Hm in D. lia. }
  assert (Mm : (buffer e - 5) mod 5 = 0).
  { replace (buffer e - 5) with (buffer e + (-1) * 5) by lia.
    rewrite Z.mod_add by lia. exact Hm. }
  assert (Mp : (buffer e + 5) mod 5 = 0).
  { replace (buffer e + 5) with (buffer e + 1 * 5) by lia.
    rewrite Z.mod_add by lia. exact Hm. }
  unfold edit_scroll.
  destruct (to_uint32 (now - scrollCooldown e) >=? 100);
    [|done_scroll].
  destruct (valueHighlighted e); simpl;
    [|done_scroll].
  destruct (analogRead io Pin.rightY >? joyStickHighTrigger); simpl.
  - destruct (Z.gtb_spec (buffer e) 5); simpl.
    + unfold to_uint8. rewrite (Z.mod_small (buffer e - 5)) by lia.
      done_scroll.
    + destruct (analogRead io Pin.rightY <? joyStickLowTrigger); simpl.
      * destruct (Z.ltb_spec (buffer e) 100); simpl.
        -- unfold to_uint8. rewrite (Z.mod_small (buffer e + 5)) by lia.
           done_scroll.
        -- done_scroll.
      * done_scroll.
  - destruct (analogRead io Pin.rightY <? joyStickLowTrigger); simpl.
    + destruct (Z.ltb_spec (buffer e) 100); simpl.
      * unfold to_uint8. rewrite (Z.mod_small (buffer e + 5)) by lia.
        done_scroll.
      * done_scroll.
    + done_scroll.
Qed.

Lemma edit_scroll_stays_between_5_and_100_witness :
  5 <= buffer (edit_scroll (steady 300 HIGH) 100 (editing true false 100))
  <= 100 /\
  buffer (edit_scroll (steady 300 HIGH) 100 (editing true false 100))
  mod 5 = 0 /\
  (buffer (edit_scroll (steady 300 HIGH) 100 (editing true false 100))
   = buffer (editing true false 100)
   \/ buffer (edit_scroll (steady 300 HIGH) 100 (editing true false 100))
      = buffer (editing true false 100) - 5
   \/ buffer (edit_scroll (steady 300 HIGH) 100 (editing true false 100))
      = buffer (editing true false 100) + 5) /\
  (valueHighlighted (editing true false 100) = false ->
   buffer (edit_scroll (steady 300 HIGH) 100 (editing true false 100))
   = buffer (editing true false 100)).
Proof.
  apply (edit_scroll_stays_between_5_and_100 (steady 300 HIGH) 100
           (editing true false 100)); [simpl; lia | reflexivity].
Defined.

Lemma to_int8_small (b : Z) : 0 <= b <= 127 -> to_int8 b = b.
Proof.
  intros H. unfold to_int8. rewrite Z.mod_small by lia.
  destruct (Z.ltb_spec b 128); [reflexivity | lia].
Qed.

(** What the editor commits is what Pro mode starts with the next time:
    after a commit of a value in 0..127, entering Pro mode gives that
    value as the sensitivity of the page it was committed on. *)
Theorem committed_value_is_loaded_again
  (io : inputs) (e : edit) (st : transmitter) :
  valueHighlighted e = true ->
  digitalRead io Pin.ackButton = LOW ->
  nth 2 (lastButtonState st) HIGH = HIGH ->
  0 <= buffer e <= 127 ->
  (if page e
   then steerSensitifity
          (txData (drawProScreen_enter (snd (edit_buttons io e st))))
   else throttleSensitifity
          (txData (drawProScreen_enter (snd (edit_buttons io e st)))))
  = buffer e.
Proof.
  intros Hh Hd Hn Hb. unfold edit_buttons.
  rewrite (risingEdge_pressed io Pin.ackButton 2 st eq_refl Hd Hn).
  rewrite Hh. destruct (page e); simpl; apply to_int8_small, Hb.
Qed.

Lemma committed_value_is_loaded_again_witness :
  steerSensitifity
    (txData (drawProScreen_enter
               (snd (edit_buttons (pins 512 LOW HIGH) (editing true true 65)
                       (boot stored_40_70))))) = 65.
Proof.
  apply (committed_value_is_loaded_again (pins 512 LOW HIGH)
           (editing true true 65) (boot stored_40_70));
    [reflexivity | reflexivity | reflexivity | simpl; lia].
Defined.

(** The back button on a highlighted value discards the edit: the value
    is no longer highlighted, the buffer holds the stored byte of the
    page again, and neither the persistent bytes nor [txData] have
    changed. *)
Theorem back_discards_the_edit
  (io : inputs) (e : edit) (st : transmitter) :
  valueHighlighted e = true ->
  digitalRead io Pin.ackButton = HIGH ->
  digitalRead io Pin.backButton = LOW ->
  nth 3 (lastButtonState st) HIGH = HIGH ->
  exists e',
    fst (edit_buttons io e st) = Some e' /\
    valueHighlighted e' = false /\
    page e' = page e /\
    buffer e' = EEPROM st (of_bool (page e)) /\
    EEPROM (snd (edit_buttons io e st)) = EEPROM st /\
    txData (snd (edit_buttons io e st)) = txData st.
Proof.
  intros Hh Ha Hb Hn. unfold edit_buttons.
  pose proof (risingEdge_value io Pin.ackButton 2 st eq_refl) as V.
  pose proof (risingEdge_frame io Pin.ackButton st) as [Ft [_ Fe]].
  pose proof (risingEdge_other io Pin.ackButton 2 3 st eq_refl
                ltac:(discriminate)) as O.
  destruct (risingEdge io Pin.ackButton st) as [ack st1].
  simpl in V, Ft, Fe, O.
  rewrite Ha, andb_false_r in V. subst ack.
  rewrite <- O in Hn.
  rewrite (risingEdge_pressed io Pin.backButton 3 st1 eq_refl Hb Hn).
  rewrite Hh. simpl. eexists. split; [reflexivity|]. simpl.
  rewrite Fe, Ft. repeat apply conj; reflexivity.
Qed.

Lemma back_discards_the_edit_witness :
  exists e',
    fst (edit_buttons (pins 512 HIGH LOW) (editing true false 95)
           (boot stored_40_70)) = Some e' /\
    valueHighlighted e' = false /\
    page e' = page (editing true false 95) /\
    buffer e' = EEPROM (boot stored_40_70)
                  (of_bool (page (editing true false 95))) /\
    EEPROM (snd (edit_buttons (pins 512 HIGH LOW) (editing true false 95)
                   (boot stored_40_70))) = EEPROM (boot stored_40_70) /\
    txData (snd (edit_buttons (pins 512 HIGH LOW) (editing true false 95)
                   (boot stored_40_70))) = txData (boot stored_40_70).
Proof.
  apply (back_discards_the_edit (pins 512 HIGH LOW)
           (editing true false 95) (boot stored_40_70)); reflexivity.
Defined.

(** While no value is highlighted, a pass of the editor writes nothing:
    the persistent bytes and the two sensitivities of [txData] are the
    same after the pass. *)
Theorem browsing_writes_nothing
  (io : inputs) (e : edit) (st : transmitter) :
  valueHighlighted e = false ->
  EEPROM (snd (edit_pass io e st)) = EEPROM st /\
  throttleSensitifity (txData (snd (edit_pass io e st)))
  = throttleSensitifity (txData st) /\
  steerSensitifity (txData (snd (edit_pass io e st)))
  = steerSensitifity (txData st).
Proof.
  intros Hh. unfold edit_pass.
  destruct (sendData_keeps io debug st) as [_ [St [Ss Se]]].
  set (st1 := sendData io debug st) in *.
  set (e1 := edit_scroll io (millis st1) (edit_blink (millis st1) e)).
  assert (Hh1 : valueHighlighted e1 = false).
  { subst e1. rewrite edit_scroll_highlighted, edit_blink_highlighted.
    exact Hh. }
  unfold edit_buttons. rewrite Hh1. simpl.
  pose proof (risingEdge_frame io Pin.ackButton st1) as [At [_ Ae]].
  destruct (risingEdge io Pin.ackButton st1) as [ack st2].
  simpl in At, Ae.
  destruct ack.
  - pose proof (edit_tabs_frame io
                  {| previousBlink := previousBlink e1;
                     scrollCooldown := scrollCooldown e1;
                     showCurrentValue := showCurrentValue e1;
                     valueHighlighted := true;
                     page := page e1; buffer := buffer e1 |} st2)
      as [Tt _].
    pose proof (edit_tabs_eeprom io
                  {| previousBlink := previousBlink e1;
                     scrollCooldown := scrollCooldown e1;
                     showCurrentValue := showCurrentValue e1;
                     valueHighlighted := true;
                     page := page e1; buffer := buffer e1 |} st2) as Te.
    destruct (edit_tabs io _ st2) as [e3 st3]. simpl in Tt, Te |- *.
    rewrite Te, Tt, Ae, At, Se, St, Ss. auto.
  - pose proof (risingEdge_frame io Pin.backButton st2) as [Bt [_ Be]].
    destruct (risingEdge io Pin.backButton st2) as [back st3].
    simpl in Bt, Be.
    destruct back.
    + simpl. rewrite Be, Bt, Ae, At, Se, St, Ss. auto.
    + pose proof (edit_tabs_frame io e1 st3) as [Tt _].
      pose proof (edit_tabs_eeprom io e1 st3) as Te.
      destruct (edit_tabs io e1 st3) as [e3 st4]. simpl in Tt, Te |- *.
      rewrite Te, Tt, Be, Bt, Ae, At, Se, St, Ss. auto.
Qed.

Lemma browsing_writes_nothing_witness :
  let st := drawProScreen_enter (boot stored_40_70) in
  EEPROM (snd (edit_pass (pins 300 LOW HIGH) (editing false false 40) st))
  = EEPROM st /\
  throttleSensitifity
    (txData (snd (edit_pass (pins 300 LOW HIGH) (editing false false 40) st)))
  = throttleSensitifity (txData st) /\
  steerSensitifity
    (txData (snd (edit_pass (pins 300 LOW HIGH) (editing false false 40) st)))
  = steerSensitifity (txData st).
Proof.
  apply (browsing_writes_nothing (pins 300 LOW HIGH)
           (editing false false 40)
           (drawProScreen_enter (boot stored_40_70))).
  reflexivity.
Defined.

Lemma edit_buttons_in_sync (io : inputs) (e : edit) (st : transmitter) :
  in_sync st -> in_sync (snd (edit_buttons io e st)).
Proof.
  unfold in_sync. intros [Ht Hs]. unfold edit_buttons.
  pose proof (risingEdge_frame io Pin.ackButton st) as [At [_ Ae]].
  destruct (risingEdge io Pin.ackButton st) as [ack st1].
  simpl in At, Ae.
  destruct ack.
  - destruct (valueHighlighted e); simpl.
    + destruct (page e); simpl; rewrite Ae, At; auto.
    + rewrite Ae, At. auto.
  - pose proof (risingEdge_frame io Pin.backButton st1) as [Bt [_ Be]].
    destruct (risingEdge io Pin.backButton st1) as [back st2].
    simpl in Bt, Be.
    destruct back; [destruct (valueHighlighted e)|]; simpl;
      rewrite Be, Bt, Ae, At; auto.
Qed.

Lemma edit_pass_in_sync (io : inputs) (e : edit) (st : transmitter) :
  in_sync st -> in_sync (snd (edit_pass io e st)).
Proof.
  intros H. unfold edit_pass.
  assert (H1 : in_sync (sendData io debug st)).
  { destruct (sendData_keeps io debug st) as [_ [St [Ss Se]]].
    unfold in_sync in *. rewrite St, Ss, Se. exact H. }
  set (st1 := sendData io debug st) in *.
  set (e1 := edit_scroll io (millis st1) (edit_blink (millis st1) e)).
  pose proof (edit_buttons_in_sync io e1 st1 H1) as H2.
  destruct (edit_buttons io e1 st1) as [[e2|] st2]; simpl in H2 |- *;
    [|exact H2].
  pose proof (edit_tabs_frame io e2 st2) as [Tt _].
  pose proof (edit_tabs_eeprom io e2 st2) as Te.
  destruct (edit_tabs io e2 st2) as [e3 st3]. simpl in Tt, Te |- *.
  unfold in_sync in *. rewrite Tt, Te. exact H2.
Qed.

Lemma edit_loop_in_sync (passes : list (Z * inputs)) :
  forall (e : edit) (st : transmitter),
    in_sync st -> in_sync (state_of (edit_loop passes e st)).
Proof.
  induction passes as [|[ms io] rest IH]; intros e st H; simpl;
    [exact H|].
  pose proof (edit_pass_in_sync io e (delay ms st) H) as H1.
  destruct (edit_pass io e (delay ms st)) as [[e'|] st']; simpl in H1 |- *.
  - apply IH, H1.
  - exact H1.
Qed.

(** The editor keeps the live settings and the stored ones together:
    if on entry the two sensitivities of [txData] are the two persistent
    bytes, they still are after any number of passes of the editor,
    commits included. *)
Theorem editor_keeps_settings_in_sync
  (passes : list (Z * inputs)) (st : transmitter) :
  throttleSensitifity (txData st) = to_int8 (EEPROM st 0) ->
  steerSensitifity (txData st) = to_int8 (EEPROM st 1) ->
  throttleSensitifity (txData (state_of (drawEditProSettings passes st)))
  = to_int8 (EEPROM (state_of (drawEditProSettings passes st)) 0) /\
  steerSensitifity (txData (state_of (drawEditProSettings passes st)))
  = to_int8 (EEPROM (state_of (drawEditProSettings passes st)) 1).
Proof.
  intros Ht Hs. unfold drawEditProSettings, edit_enter.
  apply (edit_loop_in_sync passes). split; simpl; assumption.
Qed.

Lemma editor_keeps_settings_in_sync_witness :
  let passes :=
    [(10, pins 512 LOW HIGH); (150, pins 300 HIGH HIGH);
     (10, pins 512 LOW HIGH); (3000, pins 512 HIGH LOW)] in
  let st := drawProScreen_enter (boot stored_40_70) in
  throttleSensitifity (txData (state_of (drawEditProSettings passes st)))
  = to_int8 (EEPROM (state_of (drawEditProSettings passes st)) 0) /\
  steerSensitifity (txData (state_of (drawEditProSettings passes st)))
  = to_int8 (EEPROM (state_of (drawEditProSettings passes st)) 1).
Proof.
  apply (editor_keeps_settings_in_sync
           [(10, pins 512 LOW HIGH); (150, pins 300 HIGH HIGH);
            (10, pins 512 LOW HIGH); (3000, pins 512 HIGH LOW)]
           (drawProScreen_enter (boot stored_40_70))); reflexivity.
Defined.

End TransmitterProofs.
